(** * AWS Blogs MCP server: a shallow embedding of [server.py] and [utils.py]

    The development follows the two Python modules of
    [awslabs/aws_blogs_mcp_server]:

    - [utils.py]: the category registry [AWS_BLOG_CATEGORIES] and the date
      normalizer [parse_date_string];
    - [server.py]: the tools [read_blog_post], [search_blog_posts],
      [get_recent_posts], [get_rss_feed] and their helpers
      [_search_rss_feed] and [_get_posts_from_rss].

    Python strings are [string]s (texts of code points below 256), [int]s
    that are validated to be non-negative are [nat]s, other [int]s are in
    [Z], [Optional] values are [option]s, dictionaries
    whose order matters are association lists.  Effects (HTTP retrieval,
    log records, exceptions) are explicit: a tool is a computation in the
    monad [M], which collects the trace of effects and ends either in a
    value or in a raised exception. *)

From Stdlib Require Import List String Ascii Arith ZArith Lia Bool.
From Stdlib Require Import Sorted Permutation.
From Stdlib Require Import Decimal DecimalNat DecimalString.
Import ListNotations.
Open Scope string_scope.
Open Scope list_scope.
Open Scope nat_scope.

Set Implicit Arguments.
Set Warnings "-abstract-large-number".

(** String concatenation, Python's [+] on [str]; [++] stays with lists. *)
Infix "+++" := String.append (right associativity, at level 60).

(* ================================================================= *)
(** * Python strings *)

Module PyStr.

(** The characters a Rocq literal cannot hold directly. *)
Definition nl : string := String "010"%char EmptyString.
Definition dq : string := String "034"%char EmptyString.

(** [s.startswith(p)] *)
Fixpoint startswith (s p : string) : bool :=
match p, s with
| EmptyString, _ => true
| String _ _, EmptyString => false
| String b p', String a s' => Ascii.eqb a b && startswith s' p'
end.

(** [sub in s]: [sub] occurs in [s] as a contiguous substring. *)
Fixpoint str_in (sub s : string) : bool :=
startswith s sub ||
match s with
| EmptyString => false
| String _ s' => str_in sub s'
end.

(** [s[:n]] and [s[n:]] for [n >= 0]. *)
Fixpoint take (n : nat) (s : string) : string :=
match n, s with
| S n', String a s' => String a (take n' s')
| _, _ => EmptyString
end.

Fixpoint drop (n : nat) (s : string) : string :=
match n, s with
| S n', String _ s' => drop n' s'
| _, _ => s
end.

(** [s[a:b]] for [0 <= a]: the characters from index [a] up to, and not
  including, index [b], cut at the end of [s]. *)
Definition slice (s : string) (a b : nat) : string :=
take (b - a) (drop a s).

(** [str(n)] for a non-negative [int]: its decimal digits. *)
Definition of_nat (n : nat) : string :=
NilEmpty.string_of_uint (Nat.to_uint n).

(** [str(n)] for an [int]. *)
Definition of_int (n : Z) : string :=
NilZero.string_of_int (Z.to_int n).

(** [int(s)] on a string of decimal digits. *)
Definition to_nat (s : string) : option nat :=
match s with
| EmptyString => None
| _ => option_map Nat.of_uint (NilEmpty.uint_of_string s)
end.

(** [str(x)] of an [Optional[str]]. *)
Definition of_opt (x : option string) : string :=
match x with
| Some s => s
| None => "None"
end.

(** [d.get(key, default)] on an optional field. *)
Definition get (x : option string) (default : string) : string :=
match x with
| Some s => s
| None => default
end.

(** Truth value of an [Optional[str]]: [None] and the empty string are
  false. *)
Definition truthy (x : option string) : bool :=
match x with
| Some (String _ _) => true
| _ => false
end.

(** [''.join(l)] *)
Definition join (l : list string) : string :=
fold_right append EmptyString l.

End PyStr.
Import PyStr.

(* ================================================================= *)
(** * [utils.py]: the category registry *)

Record CategoryInfo := mkCategory {
  cat_name : string;
  cat_url : string;
  cat_rss : string
}.

(** The dictionary literal, in declaration order (a Python [dict] iterates
    in insertion order). *)
Definition AWS_BLOG_CATEGORIES : list (string * CategoryInfo) :=
  [ ("aws",
     mkCategory "AWS News Blog"
                "https://aws.amazon.com/blogs/aws/"
                "https://aws.amazon.com/blogs/aws/feed/");
    ("architecture",
     mkCategory "AWS Architecture Blog"
                "https://aws.amazon.com/blogs/architecture/"
                "https://aws.amazon.com/blogs/architecture/feed/");
    ("compute",
     mkCategory "AWS Compute Blog"
                "https://aws.amazon.com/blogs/compute/"
                "https://aws.amazon.com/blogs/compute/feed/");
    ("containers",
     mkCategory "Containers"
                "https://aws.amazon.com/blogs/containers/"
                "https://aws.amazon.com/blogs/containers/feed/");
    ("database",
     mkCategory "Database"
                "https://aws.amazon.com/blogs/database/"
                "https://aws.amazon.com/blogs/database/feed/");
    ("developer",
     mkCategory "AWS Developer Tools Blog"
                "https://aws.amazon.com/blogs/developer/"
                "https://aws.amazon.com/blogs/developer/feed/");
    ("devops",
     mkCategory "AWS DevOps Blog"
                "https://aws.amazon.com/blogs/devops/"
                "https://aws.amazon.com/blogs/devops/feed/");
    ("machine-learning",
     mkCategory "AWS Machine Learning Blog"
                "https://aws.amazon.com/blogs/machine-learning/"
                "https://aws.amazon.com/blogs/machine-learning/feed/");
    ("networking-and-content-delivery",
     mkCategory "Networking & Content Delivery"
                "https://aws.amazon.com/blogs/networking-and-content-delivery/"
                "https://aws.amazon.com/blogs/networking-and-content-delivery/feed/");
    ("security",
     mkCategory "AWS Security Blog"
                "https://aws.amazon.com/blogs/security/"
                "https://aws.amazon.com/blogs/security/feed/");
    ("storage",
     mkCategory "AWS Storage Blog"
                "https://aws.amazon.com/blogs/storage/"
                "https://aws.amazon.com/blogs/storage/feed/") ].

(** [d[key]] on an association list: the first binding of [key]. *)
Fixpoint dict_lookup {V : Type} (d : list (string * V)) (key : string)
  : option V :=
  match d with
  | [] => None
  | (k, v) :: d' => if String.eqb k key then Some v else dict_lookup d' key
  end.

(** [key in d] *)
Definition dict_mem {V : Type} (d : list (string * V)) (key : string) : bool :=
  match dict_lookup d key with
  | Some _ => true
  | None => false
  end.

(** [list(d.keys())] *)
Definition dict_keys {V : Type} (d : list (string * V)) : list string :=
  map fst d.

(* ================================================================= *)
(** * Timestamps *)

(** The first six items of a time tuple ([time.struct_time]), the ones
    the server reads; they are Python [int]s. *)
Record struct_time := mk_struct_time {
  tm_year : Z;
  tm_mon : Z;
  tm_mday : Z;
  tm_hour : Z;
  tm_min : Z;
  tm_sec : Z
}.

(** A naive [datetime]. *)
Record datetime := mkDatetime {
  dt_year : nat;
  dt_month : nat;
  dt_day : nat;
  dt_hour : nat;
  dt_minute : nat;
  dt_second : nat
}.

(** [datetime.min] *)
Definition datetime_min : datetime := mkDatetime 1 1 1 0 0 0.

Definition dt_fields (d : datetime) : list nat :=
  [dt_year d; dt_month d; dt_day d; dt_hour d; dt_minute d; dt_second d].

(** Naive datetimes compare field by field, the year first. *)
Fixpoint lex_ltb (a b : list nat) : bool :=
  match a, b with
  | x :: a', y :: b' => (x <? y) || ((x =? y) && lex_ltb a' b')
  | [], _ :: _ => true
  | _, [] => false
  end.

Definition datetime_ltb (a b : datetime) : bool :=
  lex_ltb (dt_fields a) (dt_fields b).

(** [a == b] *)
Definition datetime_eqb (a b : datetime) : bool :=
  (dt_year a =? dt_year b) && (dt_month a =? dt_month b) &&
  (dt_day a =? dt_day b) && (dt_hour a =? dt_hour b) &&
  (dt_minute a =? dt_minute b) && (dt_second a =? dt_second b).

Definition is_leap (year : nat) : bool :=
  (year mod 4 =? 0) && (negb (year mod 100 =? 0) || (year mod 400 =? 0)).

Definition days_in_month (year month : nat) : nat :=
  match month with
  | 2 => if is_leap year then 29 else 28
  | 4 | 6 | 9 | 11 => 30
  | _ => 31
  end.

(* ================================================================= *)
(** * [models.py] *)

Record BlogPost := mkBlogPost {
  bp_title : string;
  bp_url : string;
  bp_summary : option string;
  bp_author : option string;
  bp_published_date : option datetime;
  bp_category : option string;
  bp_tags : option (list string)
}.

(** [relevance_score] is an [Optional[float]] in the model class; the only
    values the server ever stores in it are the small integers the scoring
    computes, so it is a [nat] here. *)
Record SearchResult := mkSearchResult {
  sr_title : string;
  sr_url : string;
  sr_summary : option string;
  sr_published_date : option datetime;
  sr_category : option string;
  sr_relevance_score : option nat
}.

(** An entry of a parsed feed, as [feedparser] exposes it: every field may
    be missing.  [fe_published_parsed] is the time tuple feedparser derived
    from the publication date; nothing says that it is a calendar time. *)
Record FeedEntry := mkFeedEntry {
  fe_title : option string;
  fe_link : option string;
  fe_summary : option string;
  fe_author : option string;
  fe_published_parsed : option struct_time
}.

(* ================================================================= *)
(** * Effects: trace, exceptions, the monad [M] *)

Inductive Level := INFO | WARNING | ERROR.

(** What a tool does besides computing its result: it retrieves URLs and
    writes log records. *)
Inductive Event :=
| HttpGet (url : string)
| LogRecord (level : Level) (message : string).

(** A raised exception, identified by [str(e)]. *)
Definition Exn := string.

Definition M (A : Type) : Type := (list Event * (Exn + A))%type.

Definition ret {A : Type} (a : A) : M A := ([], inr a).

Definition raise {A : Type} (e : Exn) : M A := ([], inl e).

Definition bind {A B : Type} (m : M A) (k : A -> M B) : M B :=
  match m with
  | (t, inl e) => (t, inl e)
  | (t, inr a) => let (t', r) := k a in (t ++ t', r)
  end.

Definition emit (ev : Event) : M unit := ([ev], inr tt).

Definition log (level : Level) (message : string) : M unit :=
  emit (LogRecord level message).

(** [try: body  except Exception as e: handler(e)] *)
Definition try_except {A : Type} (body : M A) (handler : Exn -> M A) : M A :=
  match body with
  | (t, inl e) => let (t', r) := handler e in (t ++ t', r)
  | (t, inr a) => (t, inr a)
  end.

Declare Scope monad_scope.
Delimit Scope monad_scope with monad.
Notation "x <- m ;; k" := (bind m (fun x => k))
  (at level 61, m at next level, right associativity) : monad_scope.
Notation "m ;; k" := (bind m (fun _ => k))
  (at level 61, right associativity) : monad_scope.
Open Scope monad_scope.

(** [for x in xs: s = body(s, x)], the loop state threaded through. *)
Fixpoint for_each {A S : Type} (xs : list A) (body : S -> A -> M S) (s : S)
  : M S :=
  match xs with
  | [] => ret s
  | x :: xs' => s' <- body s x ;; for_each xs' body s'
  end.

(** A call that returns or raises, without other effects. *)
Definition lift {A : Type} (r : Exn + A) : M A :=
  match r with
  | inl e => raise e
  | inr a => ret a
  end.

Definition trace {A : Type} (m : M A) : list Event := fst m.
Definition value {A : Type} (m : M A) : Exn + A := snd m.

(** The network: what retrieving a feed URL and parsing the response
    yields, either the exception raised on the way ([client.get],
    [raise_for_status]) or the entries of the parsed feed. *)
Definition Net := string -> Exn + list FeedEntry.

Definition fetch_feed (net : Net) (rss_url : string) : M (list FeedEntry) :=
  emit (HttpGet rss_url) ;;
  match net rss_url with
  | inl e => raise e
  | inr entries => ret entries
  end.

(** [AWS_BLOG_CATEGORIES[key]], a [KeyError] when [key] is missing. *)
Definition registry (key : string) : M CategoryInfo :=
  match dict_lookup AWS_BLOG_CATEGORIES key with
  | Some info => ret info
  | None => raise ("'" +++ key +++ "'")
  end.

(* ================================================================= *)
(** * The constructor [datetime] *)

(** The conversion of an argument to a C [int] (CPython, where a C [long]
    has 64 bits): the [OverflowError] of an [int] that does not fit. *)
Definition c_int_error (v : Z) : option Exn :=
  if ((v <? - 2 ^ 63) || (2 ^ 63 - 1 <? v))%Z
  then Some "Python int too large to convert to C long"
  else if (2 ^ 31 - 1 <? v)%Z
  then Some "signed integer is greater than maximum"
  else if (v <? - 2 ^ 31)%Z
  then Some "signed integer is less than minimum"
  else None.

Fixpoint first_error (args : list Z) : option Exn :=
  match args with
  | [] => None
  | v :: args' =>
      match c_int_error v with
      | Some e => Some e
      | None => first_error args'
      end
  end.

(** [datetime(year, month, day, hour, minute, second)] on the first six
    items of a time tuple: the arguments are converted, then the date and
    the time are checked; the [ValueError] names the first field out of
    range. *)
Definition datetime_of (t : struct_time) : Exn + datetime :=
  let year := tm_year t in
  let month := tm_mon t in
  let day := tm_mday t in
  let hour := tm_hour t in
  let minute := tm_min t in
  let second := tm_sec t in
  match first_error [year; month; day; hour; minute; second] with
  | Some e => inl e
  | None =>
      if negb ((1 <=? year) && (year <=? 9999))%Z
      then inl ("year " +++ of_int year +++ " is out of range")
      else if negb ((1 <=? month) && (month <=? 12))%Z
      then inl "month must be in 1..12"
      else if negb ((1 <=? day) &&
                    (day <=? Z.of_nat (days_in_month (Z.to_nat year)
                                                     (Z.to_nat month))))%Z
      then inl "day is out of range for month"
      else if negb ((0 <=? hour) && (hour <=? 23))%Z
      then inl "hour must be in 0..23"
      else if negb ((0 <=? minute) && (minute <=? 59))%Z
      then inl "minute must be in 0..59"
      else if negb ((0 <=? second) && (second <=? 59))%Z
      then inl "second must be in 0..59"
      else inr (mkDatetime (Z.to_nat year) (Z.to_nat month) (Z.to_nat day)
                           (Z.to_nat hour) (Z.to_nat minute)
                           (Z.to_nat second))
  end.

(* ================================================================= *)
(** * Sorting *)

(** [sorted(l, key=key, reverse=True)]: Python's sort is stable, also with
    [reverse=True]: elements with equal keys keep their order in [l]. *)
Section Sorted.
Context {A K : Type} (ltb : K -> K -> bool) (key : A -> K).

Fixpoint insert_desc (x : A) (l : list A) : list A :=
  match l with
  | [] => [x]
  | y :: l' =>
      if ltb (key x) (key y) then y :: insert_desc x l' else x :: y :: l'
  end.

Fixpoint sorted_reverse (l : list A) : list A :=
  match l with
  | [] => []
  | x :: l' => insert_desc x (sorted_reverse l')
  end.

(** The order of the result: no element is below a later one. *)
Definition key_ge (a b : A) : Prop := ltb (key a) (key b) = false.
End Sorted.

(* ================================================================= *)
(** * [server.py]: search and listing *)

Section Server.

(** [str.lower()].  Python lower-cases by Unicode rules; nothing below
    depends on what the function computes, so it stays abstract. *)
Variable lower : string -> string.

(** ** Helper [_search_rss_feed] *)

(** The relevance scoring of one entry: the statements between
    [relevance_score = 0] and the test [relevance_score > 0]. *)
Definition entry_score (query_lower : string) (entry : FeedEntry) : nat :=
  let title := get (fe_title entry) "" in
  let summary := get (fe_summary entry) "" in
  let relevance_score := 0 in
  let relevance_score :=
    if str_in query_lower (lower title)
    then relevance_score + 2 else relevance_score in
  let relevance_score :=
    if str_in query_lower (lower summary)
    then relevance_score + 1 else relevance_score in
  relevance_score.

(** The statements that set [published_date]: [None], or the [datetime]
    built from the time tuple when the entry has one (a time tuple is never
    false).  The constructor raises on a tuple that is no calendar time. *)
Definition entry_published_date (entry : FeedEntry) : Exn + option datetime :=
  let published_date := None in
  match fe_published_parsed entry with
  | Some published_parsed =>
      match datetime_of published_parsed with
      | inl e => inl e
      | inr published_date => inr (Some published_date)
      end
  | None => inr published_date
  end.

(** The [SearchResult(...)] built for an entry that scored.  The date goes
    through [isoformat] and is parsed back by the model class. *)
Definition search_result_of (entry : FeedEntry)
           (published_date : option datetime) (relevance_score : nat)
  : SearchResult :=
  {| sr_title := get (fe_title entry) "";
     sr_url := get (fe_link entry) "";
     sr_summary := Some (get (fe_summary entry) "");
     sr_published_date := published_date;
     sr_category := None;
     sr_relevance_score := Some relevance_score |}.

(** The [for entry in ...] loop, appending to [results] in feed order.  The
    date is built for an entry that scored only; the first such entry whose
    time tuple the constructor refuses ends the loop with its exception. *)
Fixpoint search_entries (query_lower : string) (entries : list FeedEntry)
  : Exn + list SearchResult :=
  match entries with
  | [] => inr []
  | entry :: rest =>
      let relevance_score := entry_score query_lower entry in
      if 0 <? relevance_score
      then
        match entry_published_date entry with
        | inl e => inl e
        | inr published_date =>
            match search_entries query_lower rest with
            | inl e => inl e
            | inr results =>
                inr (search_result_of entry published_date relevance_score
                       :: results)
            end
        end
      else search_entries query_lower rest
  end.

Definition _search_rss_feed (net : Net) (rss_url query : string)
           (limit : nat) : M (list SearchResult) :=
  try_except
    (entries <- fetch_feed net rss_url ;;
     let query_lower := lower query in
     results <-
       lift (search_entries query_lower (firstn (limit * 2) entries)) ;;
     ret (firstn limit results))
    (fun e =>
       log ERROR ("Error searching RSS feed " +++ rss_url +++ ": " +++ e) ;;
       ret []).

(** ** Helper [_get_posts_from_rss] *)

(** The inner loop over the registry: the display name of the first
    category whose feed is [rss_url]. *)
Fixpoint category_of_rss (items : list (string * CategoryInfo))
         (rss_url : string) : option string :=
  match items with
  | [] => None
  | (_, cat_info) :: items' =>
      if String.eqb (cat_rss cat_info) rss_url
      then Some (cat_name cat_info)
      else category_of_rss items' rss_url
  end.

(** The [BlogPost(...)] built for an entry. *)
Definition blog_post_of (rss_url : string) (entry : FeedEntry)
           (published_date : option datetime) : BlogPost :=
  {| bp_title := get (fe_title entry) "";
     bp_url := get (fe_link entry) "";
     bp_summary := Some (get (fe_summary entry) "");
     bp_author := Some (get (fe_author entry) "");
     bp_published_date := published_date;
     bp_category := category_of_rss AWS_BLOG_CATEGORIES rss_url;
     bp_tags := None |}.

(** The [for entry in ...] loop, appending to [posts] in feed order; the
    first entry whose time tuple the constructor refuses ends the loop with
    its exception. *)
Fixpoint posts_of_entries (rss_url : string) (entries : list FeedEntry)
  : Exn + list BlogPost :=
  match entries with
  | [] => inr []
  | entry :: rest =>
      match entry_published_date entry with
      | inl e => inl e
      | inr published_date =>
          match posts_of_entries rss_url rest with
          | inl e => inl e
          | inr posts =>
              inr (blog_post_of rss_url entry published_date :: posts)
          end
      end
  end.

Definition _get_posts_from_rss (net : Net) (rss_url : string) (limit : nat)
  : M (list BlogPost) :=
  try_except
    (entries <- fetch_feed net rss_url ;;
     posts <- lift (posts_of_entries rss_url (firstn limit entries)) ;;
     ret posts)
    (fun e =>
       log ERROR
           ("Error getting posts from RSS feed " +++ rss_url +++ ": " +++ e) ;;
       ret []).

(** ** Tool [search_blog_posts] *)

(** [category and category in AWS_BLOG_CATEGORIES]: the category when the
    test holds. *)
Definition known_category (category : option string) : option string :=
  match category with
  | Some c =>
      if truthy category && dict_mem AWS_BLOG_CATEGORIES c then Some c
      else None
  | None => None
  end.

(** [key=lambda x: x.relevance_score or 0] *)
Definition relevance_key (x : SearchResult) : nat :=
  match sr_relevance_score x with
  | Some s => s
  | None => 0
  end.

Definition search_blog_posts (net : Net) (query : string)
           (category : option string) (limit : nat)
  : M (list SearchResult) :=
  try_except
    (log INFO ("Searching blog posts: query=" +++ dq +++ query +++ dq +++
               ", category=" +++ dq +++ of_opt category +++ dq) ;;
     let results := [] in
     results <-
       match known_category category with
       | Some c =>
           info <- registry c ;;
           let rss_url := cat_rss info in
           feed_results <- _search_rss_feed net rss_url query limit ;;
           ret (results ++ feed_results)
       | None =>
           let categories_to_search :=
             match known_category category with
             | Some c => [c]
             | None => dict_keys AWS_BLOG_CATEGORIES
             end in
           for_each (firstn 5 categories_to_search)
             (fun results cat =>
                try_except
                  (info <- registry cat ;;
                   let rss_url := cat_rss info in
                   feed_results <-
                     _search_rss_feed net rss_url query
                       (limit / List.length categories_to_search + 1) ;;
                   ret (results ++ feed_results))
                  (fun e =>
                     log WARNING
                         ("Error searching category " +++ cat +++ ": " +++ e) ;;
                     ret results))
             results
       end ;;
     let results := firstn limit (sorted_reverse Nat.ltb relevance_key results) in
     ret results)
    (fun e =>
       log ERROR ("Error searching blog posts: " +++ e) ;;
       ret []).

(** ** Tool [get_recent_posts] *)

(** [key=lambda x: x.published_date or datetime.min] *)
Definition published_key (x : BlogPost) : datetime :=
  match bp_published_date x with
  | Some d => d
  | None => datetime_min
  end.

Definition get_recent_posts (net : Net) (category : option string)
           (limit : nat) : M (list BlogPost) :=
  try_except
    (log INFO ("Getting recent posts: category=" +++ dq +++
               of_opt category +++ dq +++ ", limit=" +++ of_nat limit) ;;
     let posts := [] in
     posts <-
       match known_category category with
       | Some c =>
           info <- registry c ;;
           let rss_url := cat_rss info in
           category_posts <- _get_posts_from_rss net rss_url limit ;;
           ret (posts ++ category_posts)
       | None =>
           for_each (firstn 5 AWS_BLOG_CATEGORIES)
             (fun posts item =>
                let (cat_slug, cat_info) := item in
                try_except
                  (let rss_url := cat_rss cat_info in
                   category_posts <-
                     _get_posts_from_rss net rss_url (limit / 5 + 1) ;;
                   ret (posts ++ category_posts))
                  (fun e =>
                     log WARNING
                         ("Error getting posts from " +++ cat_slug +++ ": "
                          +++ e) ;;
                     ret posts))
             posts
       end ;;
     let posts := firstn limit (sorted_reverse datetime_ltb published_key posts) in
     ret posts)
    (fun e =>
       log ERROR ("Error getting recent posts: " +++ e) ;;
       ret []).

(** ** Tool [get_rss_feed] *)

Definition get_rss_feed (net : Net) (category : string) (limit : nat)
  : M (list BlogPost) :=
  try_except
    ((if negb (dict_mem AWS_BLOG_CATEGORIES category)
      then raise ("Unknown category: " +++ category +++
                  ". Use list_blog_categories to see available options.")
      else ret tt) ;;
     log INFO ("Getting RSS feed for category: " +++ category) ;;
     info <- registry category ;;
     let rss_url := cat_rss info in
     posts <- _get_posts_from_rss net rss_url limit ;;
     ret posts)
    (fun e =>
       log ERROR ("Error getting RSS feed for " +++ category +++ ": " +++ e) ;;
       ret []).

End Server.

(* ================================================================= *)
(** * [utils.py]: the date normalizer *)

(** [parse_date_string] rests on [datetime.strptime] of the Python standard
    library.  [Strptime] models it the way CPython's [_strptime] module
    works, for the directives the seven formats of [parse_date_string] use:
    the format is compiled to a regular expression (one named group per
    directive, taken from the table of [TimeRE], English locale, matched
    ignoring case), the expression is matched at the start of the input by
    backtracking, the match must cover the whole input, the groups are
    converted to numbers, and the date, the time and the offset are
    validated.  Every failure is a [ValueError]; [parse_date_string]
    discards its text, which here only names the check that failed.
    Texts hold code points below 256. *)
Module Strptime.

Inductive PyError :=
| ValueError (msg : string)
| TypeError (msg : string)
| KeyError (msg : string).

(** An aware or naive [datetime]: the offset from UTC, when there is one,
    in seconds and microseconds. *)
Record Timestamp := mkTimestamp {
  ts_local : datetime;
  ts_utcoffset : option (Z * Z)
}.

(** ** Characters *)

Definition code (c : ascii) : nat := nat_of_ascii c.

Definition is_digit (c : ascii) : bool :=
  (48 <=? code c) && (code c <=? 57).

(** [str.isspace] below 256, which is also what [\s] matches and what
    [str.strip] removes: the ASCII white space, the four separators
    FS, GS, RS and US, the next-line control and the no-break space. *)
Definition is_space (c : ascii) : bool :=
  ((9 <=? code c) && (code c <=? 13)) ||
  ((28 <=? code c) && (code c <=? 32)) ||
  (code c =? 133) || (code c =? 160).

Definition lower_ascii (c : ascii) : ascii :=
  if (65 <=? code c) && (code c <=? 90) then ascii_of_nat (code c + 32)
  else c.

Fixpoint lower_str (s : string) : string :=
  match s with
  | EmptyString => EmptyString
  | String c s' => String (lower_ascii c) (lower_str s')
  end.

Fixpoint lstrip (s : string) : string :=
  match s with
  | String c s' => if is_space c then lstrip s' else s
  | EmptyString => EmptyString
  end.

Fixpoint rev_str (s acc : string) : string :=
  match s with
  | EmptyString => acc
  | String c s' => rev_str s' (String c acc)
  end.

(** [s.strip()] *)
Definition strip (s : string) : string :=
  rev_str (lstrip (rev_str (lstrip s) EmptyString)) EmptyString.

(** ** [int(s)] *)

(** The white space [int] skips around a literal: the ASCII white space
    and, of the other white space, the next-line control and the no-break
    space; the separators FS, GS, RS and US are not skipped. *)
Definition int_space (c : ascii) : bool :=
  ((9 <=? code c) && (code c <=? 13)) || (code c =? 32) ||
  (code c =? 133) || (code c =? 160).

Fixpoint int_lstrip (s : string) : string :=
  match s with
  | String c s' => if int_space c then int_lstrip s' else s
  | EmptyString => EmptyString
  end.

Fixpoint all_int_space (s : string) : bool :=
  match s with
  | String c s' => int_space c && all_int_space s'
  | EmptyString => true
  end.

Definition digit_value (c : ascii) : Z := Z.of_nat (code c - 48).

(** The digits after a first digit, single underscores allowed between
    two digits: the value and the text left, [None] on an underscore that
    no digit follows. *)
Fixpoint digits_value (s : string) (acc : Z) : option (Z * string) :=
  match s with
  | EmptyString => Some (acc, s)
  | String c s' =>
      if is_digit c then digits_value s' (10 * acc + digit_value c)%Z
      else if Ascii.eqb c "_" then
        match s' with
        | String d s'' =>
            if is_digit d then digits_value s'' (10 * acc + digit_value d)%Z
            else None
        | EmptyString => None
        end
      else Some (acc, s)
  end.

(** [int(s)]: white space, an optional sign, decimal digits, white space;
    a [ValueError] on any other text. *)
Definition int (s : string) : PyError + Z :=
  let invalid := inl (ValueError "invalid literal for int() with base 10") in
  let literal := int_lstrip s in
  let (negative, literal) :=
    match literal with
    | String c literal' =>
        if Ascii.eqb c "+" then (false, literal')
        else if Ascii.eqb c "-" then (true, literal')
        else (false, literal)
    | EmptyString => (false, literal)
    end in
  match literal with
  | String c literal' =>
      if is_digit c then
        match digits_value literal' (digit_value c) with
        | Some (v, rest) =>
            if all_int_space rest
            then inr (if negative then - v else v)%Z
            else invalid
        | None => invalid
        end
      else invalid
  | EmptyString => invalid
  end.

(** Sequencing of calls that may raise. *)
Definition and_then {A B : Type} (r : PyError + A) (k : A -> PyError + B)
  : PyError + B :=
  match r with
  | inl e => inl e
  | inr a => k a
  end.

(** ** Regular expressions, matched by backtracking *)

Inductive Re :=
| Eps
| Chr (p : ascii -> bool)
| Seq (a b : Re)
| Alt (a b : Re)
| Opt (a : Re)
| Spaces
| Group (name : ascii) (a : Re).

Definition Captures := list (ascii * string).

(** The suffixes left after a greedy [\s+]: the longest run first. *)
Fixpoint after_spaces (s : string) : list string :=
  match s with
  | String c s' => if is_space c then after_spaces s' ++ [s'] else []
  | EmptyString => []
  end.

(** All the ways [r] matches a prefix of [s], in the order a backtracking
    matcher tries them: the captured groups and the rest of the input. *)
Fixpoint rmatch (r : Re) (s : string) : list (Captures * string) :=
  match r with
  | Eps => [([], s)]
  | Chr p =>
      match s with
      | String c s' => if p c then [([], s')] else []
      | EmptyString => []
      end
  | Seq a b =>
      flat_map
        (fun m1 =>
           map (fun m2 => (fst m1 ++ fst m2, snd m2)) (rmatch b (snd m1)))
        (rmatch a s)
  | Alt a b => rmatch a s ++ rmatch b s
  | Opt a => rmatch a s ++ [([], s)]
  | Spaces => map (fun s' => ([], s')) (after_spaces s)
  | Group name a =>
      map (fun m =>
             ((name, take (String.length s - String.length (snd m)) s)
                :: fst m, snd m))
          (rmatch a s)
  end.

(** [re.match]: the first match, if any. *)
Definition re_match (r : Re) (s : string) : option (Captures * string) :=
  hd_error (rmatch r s).

(** A literal character under [IGNORECASE], and one outside it. *)
Definition lit (c : ascii) : Re :=
  Chr (fun x => Ascii.eqb (lower_ascii x) (lower_ascii c)).
Definition lit_exact (c : ascii) : Re := Chr (Ascii.eqb c).
Definition digit : Re := Chr is_digit.
Definition range (a b : ascii) : Re :=
  Chr (fun x => (code a <=? code x) && (code x <=? code b)).

Fixpoint word (s : string) : Re :=
  match s with
  | EmptyString => Eps
  | String c s' => Seq (lit c) (word s')
  end.

Fixpoint alts (l : list Re) : Re :=
  match l with
  | [] => Chr (fun _ => false)
  | [r] => r
  | r :: l' => Alt r (alts l')
  end.

(** ** The locale's month names *)

Definition f_month : list string :=
  [ ""; "january"; "february"; "march"; "april"; "may"; "june"; "july";
    "august"; "september"; "october"; "november"; "december" ].

Definition a_month : list string :=
  [ ""; "jan"; "feb"; "mar"; "apr"; "may"; "jun"; "jul"; "aug"; "sep";
    "oct"; "nov"; "dec" ].

(** [__seqToRE]: the names, longest first, as alternatives. *)
Definition seqToRE (to_convert : list string) (directive : ascii) : Re :=
  Group directive
    (alts (map word (sorted_reverse Nat.ltb String.length to_convert))).

(** [l.index(x)] *)
Fixpoint index_of (l : list string) (x : string) (i : nat) : option nat :=
  match l with
  | [] => None
  | y :: l' => if String.eqb y x then Some i else index_of l' x (S i)
  end.

(** ** The directive table of [TimeRE] *)

Local Open Scope char_scope.

Definition directive (c : ascii) : option Re :=
  let r := range in
  let l := lit in
  if Ascii.eqb c "d" then
    Some (Group c (alts [ Seq (l "3") (r "0" "1"); Seq (r "1" "2") digit;
                          Seq (l "0") (r "1" "9"); r "1" "9";
                          Seq (l " ") (r "1" "9") ]))
  else if Ascii.eqb c "H" then
    Some (Group c (alts [ Seq (l "2") (r "0" "3"); Seq (r "0" "1") digit;
                          digit ]))
  else if Ascii.eqb c "m" then
    Some (Group c (alts [ Seq (l "1") (r "0" "2"); Seq (l "0") (r "1" "9");
                          r "1" "9" ]))
  else if Ascii.eqb c "M" then
    Some (Group c (alts [ Seq (r "0" "5") digit; digit ]))
  else if Ascii.eqb c "S" then
    Some (Group c (alts [ Seq (l "6") (r "0" "1"); Seq (r "0" "5") digit;
                          digit ]))
  else if Ascii.eqb c "Y" then
    Some (Group c (Seq digit (Seq digit (Seq digit digit))))
  else if Ascii.eqb c "z" then
    let colon := Opt (l ":") in
    let fraction :=
      Seq (l ".")
          (Seq digit (Opt (Seq digit (Opt (Seq digit (Opt (Seq digit
             (Opt (Seq digit (Opt digit)))))))))) in
    let seconds := Seq colon (Seq (r "0" "5") (Seq digit (Opt fraction))) in
    Some (Group c
            (Alt (Seq (Alt (l "+") (l "-"))
                      (Seq digit (Seq digit (Seq colon (Seq (r "0" "5")
                         (Seq digit (Opt seconds)))))))
                 (lit_exact "Z")))
  else if Ascii.eqb c "B" then Some (seqToRE (tl f_month) c)
  else if Ascii.eqb c "b" then Some (seqToRE (tl a_month) c)
  else if Ascii.eqb c "%" then Some (l "%")
  else None.

Local Close Scope char_scope.

(** [TimeRE.pattern]: every run of blanks of the format becomes [\s+],
    every directive its expression, any other character itself. *)
Fixpoint pattern (in_blank : bool) (format : string) : PyError + Re :=
  match format with
  | EmptyString => inr Eps
  | String c rest =>
      if is_space c then
        match pattern true rest with
        | inl e => inl e
        | inr re => inr (if in_blank then re else Seq Spaces re)
        end
      else if Ascii.eqb c "%"%char then
        match rest with
        | EmptyString => inl (ValueError "stray % in format")
        | String d rest' =>
            match directive d, pattern false rest' with
            | None, _ => inl (ValueError "bad directive in format")
            | Some _, inl e => inl e
            | Some rd, inr re => inr (Seq rd re)
            end
        end
      else
        match pattern false rest with
        | inl e => inl e
        | inr re => inr (Seq (lit c) re)
        end
  end.

(** ** Conversion and validation *)

Definition group (caps : Captures) (name : string) : option string :=
  match name with
  | String n _ =>
      option_map snd (find (fun kv => Ascii.eqb (fst kv) n) caps)
  | EmptyString => None
  end.

(** The conversion of the group [z]. *)
Definition gmtoff_of (z : string) : PyError + (Z * Z) :=
  if String.eqb z "Z" then inr (0%Z, 0%Z)
  else
    let colon (i : nat) (s : string) := String.eqb (slice s i (i + 1)) ":" in
    let cut (i : nat) (s : string) := take i s +++ drop (i + 1) s in
    let z' : PyError + string :=
      if colon 3 z then
        let z1 := cut 3 z in
        if 5 <? String.length z1 then
          if negb (colon 5 z1)
          then inl (ValueError ("Inconsistent use of : in " +++ z))
          else inr (cut 5 z1)
        else inr z1
      else inr z in
    and_then z' (fun z2 =>
    and_then (int (slice z2 1 3)) (fun hours =>
    and_then (int (slice z2 3 5)) (fun minutes =>
    and_then (if String.eqb (slice z2 5 7) EmptyString then inr 0%Z
              else int (slice z2 5 7)) (fun seconds =>
    let gmtoff := (hours * 60 * 60 + minutes * 60 + seconds)%Z in
    let gmtoff_remainder := drop 8 z2 in
    let gmtoff_remainder_padding :=
      join (repeat "0" (6 - String.length gmtoff_remainder)) in
    and_then (int (gmtoff_remainder +++ gmtoff_remainder_padding))
             (fun gmtoff_fraction =>
    if startswith z2 "-"
    then inr (- gmtoff, - gmtoff_fraction)%Z
    else inr (gmtoff, gmtoff_fraction)))))).

(** [l.index(x)], a [ValueError] when [x] is not in [l]. *)
Definition index (l : list string) (x : string) : PyError + Z :=
  match index_of l x 0 with
  | Some i => inr (Z.of_nat i)
  | None => inl (ValueError "x is not in list")
  end.

Definition month_of (caps : Captures) : PyError + Z :=
  match group caps "m", group caps "B", group caps "b" with
  | Some m, _, _ => int m
  | None, Some B, _ => index f_month (lower_str B)
  | None, None, Some b => index a_month (lower_str b)
  | None, None, None => inr 1%Z
  end.

Definition field (caps : Captures) (name : string) (default : Z)
  : PyError + Z :=
  match group caps name with
  | Some s => int s
  | None => inr default
  end.

(** [datetime.strptime(data_string, format)] *)
Definition strptime (data_string format : string) : PyError + Timestamp :=
  match pattern false format with
  | inl e => inl e
  | inr format_regex =>
      match re_match format_regex data_string with
      | None => inl (ValueError "time data does not match format")
      | Some (found, rest) =>
          if negb (String.eqb rest EmptyString)
          then inl (ValueError ("unconverted data remains: " +++ rest))
          else
            and_then (field found "Y" 1900) (fun year =>
            and_then (month_of found) (fun month =>
            and_then (field found "d" 1) (fun day =>
            and_then (field found "H" 0) (fun hour =>
            and_then (field found "M" 0) (fun minute =>
            and_then (field found "S" 0) (fun second =>
            let tz : PyError + option (Z * Z) :=
              match group found "z" with
              | None => inr None
              | Some z =>
                  match gmtoff_of z with
                  | inl e => inl e
                  | inr off => inr (Some off)
                  end
              end in
            and_then tz (fun gmtoff =>
            if negb ((1 <=? year) && (year <=? 9999))%Z
            then inl (ValueError "year is out of range")
            else if negb ((1 <=? month) && (month <=? 12))%Z
            then inl (ValueError "month must be in 1..12")
            else if negb ((1 <=? day) &&
                          (day <=? Z.of_nat (days_in_month (Z.to_nat year)
                                                           (Z.to_nat month))))%Z
            then inl (ValueError "day is out of range for month")
            else if
              match gmtoff with
              | Some (s, _) => negb (Z.abs s <? 86400)%Z
              | None => false
              end
            then inl (ValueError "offset must be a timedelta strictly between -timedelta(hours=24) and timedelta(hours=24)")
            else if negb ((0 <=? hour) && (hour <=? 23))%Z
            then inl (ValueError "hour must be in 0..23")
            else if negb ((0 <=? minute) && (minute <=? 59))%Z
            then inl (ValueError "minute must be in 0..59")
            else if negb ((0 <=? second) && (second <=? 59))%Z
            then inl (ValueError "second must be in 0..59")
            else
              inr (mkTimestamp
                     (mkDatetime (Z.to_nat year) (Z.to_nat month)
                                 (Z.to_nat day) (Z.to_nat hour)
                                 (Z.to_nat minute) (Z.to_nat second))
                     gmtoff))))))))
      end
  end.

End Strptime.
Import Strptime.

(** The list [formats] of [parse_date_string]. *)
Definition formats : list string :=
  [ "%Y-%m-%dT%H:%M:%S%z";
    "%Y-%m-%d %H:%M:%S";
    "%Y-%m-%d";
    "%B %d, %Y";
    "%b %d, %Y";
    "%d %B %Y";
    "%d %b %Y" ].

(** The loop over the formats: the first format that parses wins, a
    [ValueError] moves on to the next format, any other exception
    propagates. *)
Fixpoint try_formats (date_str : string) (fmts : list string)
  : PyError + option Timestamp :=
  match fmts with
  | [] => inr None
  | fmt :: fmts' =>
      match strptime (strip date_str) fmt with
      | inr t => inr (Some t)
      | inl (ValueError _) => try_formats date_str fmts'
      | inl e => inl e
      end
  end.

Definition parse_date_string (date_str : string) : PyError + option Timestamp :=
  if String.eqb date_str EmptyString then inr None
  else try_formats date_str formats.

(** A call raises nothing but [ValueError]. *)
Definition only_value_error {A : Type} (r : PyError + A) : Prop :=
  forall e, r = inl e -> exists msg, e = ValueError msg.

(* ================================================================= *)
(** * [server.py]: reading a post *)

(** What [extract_blog_metadata] returns: a dictionary in which each of the
    four keys may be missing.  [published_date] may also be present with
    the value [None] (a date that did not parse); the test
    [metadata.get('published_date')] fails on it as on a missing key, so it
    is [None] here too. *)
Record Metadata := mkMetadata {
  md_title : option string;
  md_author : option string;
  md_published_date : option Timestamp;
  md_category : option string
}.

(** The web: what retrieving a page yields, the exception raised or the
    text of the response. *)
Definition Web := string -> Exn + string.

Definition no_more_content : string := "No more content available.".

(** The notice appended to a truncated chunk. *)
Definition continuation_marker (end_index : nat) : string :=
  nl +++ nl +++ "[Content truncated. Use start_index=" +++ of_nat end_index
     +++ " to continue reading.]".

(** The block [# Handle pagination] of [read_blog_post]. *)
Definition paginate (full_content : string) (start_index max_length : nat)
  : string :=
  if String.length full_content <=? start_index then no_more_content
  else
    let end_index := start_index + max_length in
    let result := slice full_content start_index end_index in
    if end_index <? String.length full_content
    then result +++ continuation_marker end_index
    else result.

Section ReadBlogPost.

(** The HTML side of the tool stays abstract: the parser and the
    converter are libraries ([BeautifulSoup], [markdownify]).
    [extract_blog_metadata] takes the page and its URL,
    [clean_html_content] the page; [timestamp_str] is [str] of a
    [datetime]. *)
Variable extract_blog_metadata : string -> string -> Metadata.
Variable clean_html_content : string -> string.
Variable timestamp_str : Timestamp -> string.

(** [fetch_url_content] of [utils.py]: log and re-raise on failure. *)
Definition fetch_url_content (web : Web) (url : string) : M string :=
  try_except
    (emit (HttpGet url) ;;
     match web url with
     | inl e => raise e
     | inr text => ret text
     end)
    (fun e =>
       log ERROR ("Error fetching URL " +++ url +++ ": " +++ e) ;;
       raise e).

(** The block [# Add metadata header] and the assembly of
    [full_content]. *)
Definition full_content_of (metadata : Metadata) (url markdown_content : string)
  : string :=
  let metadata_header :=
    "# " +++ get (md_title metadata) "AWS Blog Post" +++ nl +++ nl in
  let metadata_header :=
    if truthy (md_author metadata)
    then metadata_header +++ "**Author:** " +++ get (md_author metadata) ""
                         +++ nl
    else metadata_header in
  let metadata_header :=
    match md_published_date metadata with
    | Some published_date =>
        metadata_header +++ "**Published:** " +++ timestamp_str published_date
                        +++ nl
    | None => metadata_header
    end in
  let metadata_header :=
    if truthy (md_category metadata)
    then metadata_header +++ "**Category:** " +++ get (md_category metadata) ""
                         +++ nl
    else metadata_header in
  let metadata_header :=
    metadata_header +++ "**URL:** " +++ url +++ nl +++ nl +++ "---" +++ nl
                    +++ nl in
  metadata_header +++ markdown_content.

(** The three optional lines of the header. *)
Definition optional_lines (metadata : Metadata) : string :=
  (if truthy (md_author metadata)
   then "**Author:** " +++ get (md_author metadata) "" +++ nl
   else EmptyString) +++
  (match md_published_date metadata with
   | Some published_date =>
       "**Published:** " +++ timestamp_str published_date +++ nl
   | None => EmptyString
   end) +++
  (if truthy (md_category metadata)
   then "**Category:** " +++ get (md_category metadata) "" +++ nl
   else EmptyString).

Definition read_blog_post (web : Web) (url : string)
           (max_length start_index : nat) : M string :=
  try_except
    ((if negb (startswith url "https://aws.amazon.com/blogs/")
      then raise "URL must be from aws.amazon.com/blogs domain"
      else ret tt) ;;
     log INFO ("Fetching blog post: " +++ url) ;;
     html_content <- fetch_url_content web url ;;
     let metadata := extract_blog_metadata html_content url in
     let markdown_content := clean_html_content html_content in
     let full_content := full_content_of metadata url markdown_content in
     ret (paginate full_content start_index max_length))
    (fun e =>
       log ERROR ("Error reading blog post " +++ url +++ ": " +++ e) ;;
       ret ("Error reading blog post: " +++ e)).

End ReadBlogPost.

(** ** A reader of the paginated post *)

(** The offset a continuation notice carries, read back from its text. *)
Definition marker_offset (notice : string) : option nat :=
  let opening := nl +++ nl +++ "[Content truncated. Use start_index=" in
  let closing := " to continue reading.]" in
  if startswith notice opening then
    let rest := drop (String.length opening) notice in
    let n := String.length rest - String.length closing in
    if String.eqb (drop n rest) closing then to_nat (take n rest) else None
  else None.

(** A chunk of at most [max_length] characters carries no notice; a longer
    one is [max_length] characters of content followed by the notice. *)
Definition split_chunk (max_length : nat) (chunk : string)
  : string * option nat :=
  (take max_length chunk, marker_offset (drop max_length chunk)).

(** The caller's loop: request a chunk, keep its content, go on at the
    offset of its notice, stop at a chunk without one.  [read] is the
    tool's paginated output as a function of [start_index]; [fuel] bounds
    the number of requests. *)
Fixpoint read_all (read : nat -> string) (max_length : nat) (fuel : nat)
         (start_index : nat) : option (list string) :=
  match fuel with
  | O => None
  | S fuel' =>
      let (body, next) := split_chunk max_length (read start_index) in
      match next with
      | None => Some [body]
      | Some next_index =>
          option_map (cons body) (read_all read max_length fuel' next_index)
      end
  end.

(* ================================================================= *)
(** * Derived notions used in the statements *)

(** The feeds a fan-out visits: the first five of the registry, in
    declaration order. *)
Definition selected_feeds : list string :=
  map (fun item => cat_rss (snd item)) (firstn 5 AWS_BLOG_CATEGORIES).

(** The list a helper returned, nothing if it raised. *)
Definition returned {A : Type} (m : M (list A)) : list A :=
  match value m with
  | inr l => l
  | inl _ => []
  end.

(** The date of an entry whose time tuple the constructor accepts. *)
Definition valid_date (entry : FeedEntry) : bool :=
  match entry_published_date entry with
  | inr _ => true
  | inl _ => false
  end.

Definition date_of (entry : FeedEntry) : option datetime :=
  match entry_published_date entry with
  | inr published_date => published_date
  | inl _ => None
  end.

Section Contributions.
Variable lower : string -> string.

(** What one feed contributes to a search: what [_search_rss_feed]
    returns for it. *)
Definition feed_contribution (net : Net) (query : string) (limit : nat)
           (rss_url : string) : list SearchResult :=
  returned (_search_rss_feed lower net rss_url query limit).

(** What one feed contributes to a listing: what [_get_posts_from_rss]
    returns for it. *)
Definition posts_contribution (net : Net) (limit : nat) (rss_url : string)
  : list BlogPost :=
  returned (_get_posts_from_rss net rss_url limit).

(** The entries the search loop builds a result for. *)
Definition scoring (query : string) (entries : list FeedEntry)
  : list FeedEntry :=
  filter (fun e => 0 <? entry_score lower (lower query) e) entries.

(** The query occurs in a text, ignoring case. *)
Definition matches (query text : string) : bool :=
  str_in (lower query) (lower text).

(** The single-category search as the specification words it: the first
    [n * 2] entries, scored, the positive ones kept, sorted by score
    (descending, stable), truncated to [n]. *)
Definition spec_single_category_search (entries : list FeedEntry)
           (query : string) (n : nat) : list SearchResult :=
  let scored :=
    map (fun e => (e, entry_score lower (lower query) e))
        (firstn (n * 2) entries) in
  let positive := filter (fun es => 0 <? snd es) scored in
  let results :=
    map (fun es => search_result_of (fst es) (date_of (fst es)) (snd es))
        positive in
  firstn n (sorted_reverse Nat.ltb relevance_key results).

(** The same with the truncation the helper applies before the sort. *)
Definition kept_matches (entries : list FeedEntry) (query : string) (n : nat)
  : list SearchResult :=
  firstn n
    (map (fun e =>
            search_result_of e (date_of e) (entry_score lower (lower query) e))
         (scoring query (firstn (n * 2) entries))).

(** The posts of the first [n] entries. *)
Definition listed_posts (rss_url : string) (entries : list FeedEntry)
           (n : nat) : list BlogPost :=
  map (fun e => blog_post_of rss_url e (date_of e)) (firstn n entries).

(** What the tool merges before the final sort. *)
Definition search_merged (net : Net) (query : string)
           (category : option string) (limit : nat) : list SearchResult :=
  match known_category category with
  | Some c =>
      match dict_lookup AWS_BLOG_CATEGORIES c with
      | Some info => feed_contribution net query limit (cat_rss info)
      | None => []
      end
  | None =>
      flat_map (feed_contribution net query (limit / 11 + 1))
               selected_feeds
  end.

(** What the listing merges before the final sort. *)
Definition recent_merged (net : Net) (category : option string)
           (limit : nat) : list BlogPost :=
  match known_category category with
  | Some c =>
      match dict_lookup AWS_BLOG_CATEGORIES c with
      | Some info => posts_contribution net limit (cat_rss info)
      | None => []
      end
  | None =>
      flat_map (posts_contribution net (limit / 5 + 1)) selected_feeds
  end.
End Contributions.

(** Descending order of the keys, for the two sorts of the server. *)
Definition by_relevance (a b : SearchResult) : Prop :=
  relevance_key b <= relevance_key a.

Definition by_published (a b : BlogPost) : Prop :=
  datetime_ltb (published_key a) (published_key b) = false.

(* ================================================================= *)
(** * Sample feeds *)

Module Samples.

Definition aws_feed : string := "https://aws.amazon.com/blogs/aws/feed/".
Definition architecture_feed : string :=
  "https://aws.amazon.com/blogs/architecture/feed/".

(** [str.lower] on ASCII text. *)
Definition ascii_lower : string -> string := Strptime.lower_str.

Definition entry (title summary : string) (published : option struct_time)
  : FeedEntry :=
  mkFeedEntry (Some title) (Some ("https://aws.amazon.com/blogs/aws/" +++ title))
              (Some summary) (Some "author") published.

(** A feed whose first entry mentions the query in its summary only and
    whose second entry has it in its title. *)
Definition roundup : FeedEntry :=
  entry "Weekly roundup" "News about Lambda and more" None.
Definition launch : FeedEntry :=
  entry "Lambda launches" "A new runtime" None.
Definition guide : FeedEntry :=
  entry "Lambda guide" "How to use lambda" None.

(** Only the feed of the category [aws] can be retrieved. *)
Definition only_aws (entries : list FeedEntry) : Net :=
  fun rss_url =>
    if String.eqb rss_url aws_feed then inr entries
    else inl "503 Service Unavailable".

(** A post without a publication date, followed by one published at
    [datetime.min]. *)
Definition undated : FeedEntry := entry "Undated" "no date" None.
Definition earliest : FeedEntry :=
  entry "Earliest" "first day" (Some (mk_struct_time 1 1 1 0 0 0)).

(** A post whose time tuple has the year 0, which is no year of
    [datetime]. *)
Definition year_zero : FeedEntry :=
  entry "Lambda in the year 0" "lambda" (Some (mk_struct_time 0 12 31 23 0 0)).

(** A page and the stand-ins for the HTML libraries. *)
Definition post_url : string := "https://aws.amazon.com/blogs/aws/post/".
Definition one_page : Web :=
  fun url => if String.eqb url post_url then inr "<h1>Post</h1>Hello, world"
             else inl "404 Not Found".
Definition no_metadata (html url : string) : Metadata :=
  mkMetadata None None None None.
Definition as_is (html : string) : string := html.
Definition no_clock (t : Timestamp) : string := EmptyString.

End Samples.

(* ================================================================= *)
(** * [server.py]: listing the categories *)

(** [BlogCategory] of [models.py]. *)
Record BlogCategory := mkBlogCategory {
  bc_name : string;
  bc_slug : string;
  bc_url : string;
  bc_description : option string;
  bc_rss_url : option string
}.

Definition list_blog_categories : M (list BlogCategory) :=
  try_except
    (let categories := [] in
     categories <-
       for_each AWS_BLOG_CATEGORIES
         (fun categories item =>
            let (slug, info) := item in
            let category :=
              {| bc_name := cat_name info;
                 bc_slug := slug;
                 bc_url := cat_url info;
                 bc_description := None;
                 bc_rss_url := Some (cat_rss info) |} in
            ret (categories ++ [category]))
         categories ;;
     ret categories)
    (fun e =>
       log ERROR ("Error listing blog categories: " +++ e) ;;
       ret []).

(** The URLs a tool retrieved, in order. *)
Fixpoint requests (t : list Event) : list string :=
  match t with
  | [] => []
  | HttpGet url :: t' => url :: requests t'
  | LogRecord _ _ :: t' => requests t'
  end.

(** A computation that ends in the value [a] after retrieving [urls]. *)
Definition runs {A : Type} (m : M A) (urls : list string) (a : A) : Prop :=
  requests (trace m) = urls /\ value m = inr a.

(** The feeds a call with this category filter reads. *)
Definition feeds_of (category : option string) : list string :=
  match known_category category with
  | Some c =>
      match dict_lookup AWS_BLOG_CATEGORIES c with
      | Some info => [cat_rss info]
      | None => []
      end
  | None => selected_feeds
  end.

(* ================================================================= *)
(** * [utils.py]: metadata and content of a page *)

Module Html.

(** ** [str.split] *)

(** [s.split(sep)] for a separator that is not empty: the parts between
    the occurrences of [sep], found from the left without overlap.
    [split_go] returns the part being read and the parts after it; [skip]
    counts the characters of an occurrence still to pass. *)
Fixpoint split_go (sep : string) (skip : nat) (s : string)
  : string * list string :=
  match s with
  | EmptyString => (EmptyString, [])
  | String c s' =>
      match skip with
      | S k => split_go sep k s'
      | O =>
          if startswith s sep
          then (EmptyString,
                let (part, parts) := split_go sep (String.length sep - 1) s' in
                part :: parts)
          else let (part, parts) := split_go sep 0 s' in
               (String c part, parts)
      end
  end.

Definition split (s sep : string) : list string :=
  let (part, parts) := split_go sep 0 s in part :: parts.

(** The text before the first slash. *)
Fixpoint until_slash (s : string) : string :=
  match s with
  | EmptyString => EmptyString
  | String c s' =>
      if Ascii.eqb c "/" then EmptyString else String c (until_slash s')
  end.

(** ** The document *)

(** What the code reads of an element the parser found: [get_text()],
    [get('datetime')] and [str()]. *)
Record Element := mkElement {
  el_text : string;
  el_datetime : option string;
  el_html : string
}.

(** A parsed document, through the queries the code makes: [find(name)],
    [select_one(selector)] and [str()]. *)
Record Soup := mkSoup {
  soup_find : string -> option Element;
  soup_select_one : string -> option Element;
  soup_html : string
}.

(** The loop [for selector in ...: elem = soup.select_one(selector);
    if elem: ...; break]: the element of the first selector that matches.
    An element is always true. *)
Fixpoint first_selected (soup : Soup) (selectors : list string)
  : option Element :=
  match selectors with
  | [] => None
  | selector :: selectors' =>
      match soup_select_one soup selector with
      | Some elem => Some elem
      | None => first_selected soup selectors'
      end
  end.

(** ** [extract_blog_metadata] *)

Definition author_selectors : list string :=
  [ ".author"; ".post-author"; ".entry-author";
    "[rel=" +++ dq +++ "author" +++ dq +++ "]"; ".byline" ].

Definition date_selectors : list string :=
  [ "time[datetime]"; ".published"; ".post-date"; ".entry-date" ].

(** The loop over [date_selectors].  The date string of the first element
    found is parsed; the [break] follows the assignment, the [continue]
    is taken when the parser raises. *)
Fixpoint published_date_of (soup : Soup) (selectors : list string)
  : option Timestamp :=
  match selectors with
  | [] => None
  | selector :: selectors' =>
      match soup_select_one soup selector with
      | Some date_elem =>
          let date_str :=
            if truthy (el_datetime date_elem)
            then get (el_datetime date_elem) EmptyString
            else strip (el_text date_elem) in
          match parse_date_string date_str with
          | inr published_date => published_date
          | inl _ => published_date_of soup selectors'
          end
      | None => published_date_of soup selectors'
      end
  end.

(** The block [# Extract category from URL or content]. *)
Definition url_category (url : string) : option string :=
  if str_in "/blogs/" url then
    let url_parts := split url "/blogs/" in
    if 1 <? List.length url_parts then
      let category_part :=
        hd EmptyString (split (nth 1 url_parts EmptyString) "/") in
      match dict_lookup AWS_BLOG_CATEGORIES category_part with
      | Some info => Some (cat_name info)
      | None => None
      end
    else None
  else None.

(** The dictionary [extract_blog_metadata] returns: the key [url], always
    set, and the four optional keys. *)
Record PageMetadata := mkPageMetadata {
  pm_url : string;
  pm_fields : Metadata
}.

Definition extract_blog_metadata (soup : Soup) (url : string) : PageMetadata :=
  let title_elem :=
    match soup_find soup "h1" with
    | Some elem => Some elem
    | None => soup_find soup "title"
    end in
  let title := option_map (fun elem => strip (el_text elem)) title_elem in
  let author :=
    option_map (fun author_elem => strip (el_text author_elem))
               (first_selected soup author_selectors) in
  let published_date := published_date_of soup date_selectors in
  let category := url_category url in
  {| pm_url := url;
     pm_fields := mkMetadata title author published_date category |}.

(** ** [clean_html_content] *)

Definition content_selectors : list string :=
  [ "article"; ".post-content"; ".entry-content"; ".blog-post-content";
    "main"; "#main-content" ].

Section CleanHtml.

(** The class [\s] of the regular expressions, which is also the class
    [str.strip] removes; the parser, the removal of elements by tag name
    and the converter are libraries. *)
Variable is_space : ascii -> bool.
Variable BeautifulSoup : string -> Exn + Soup.
Variable decompose : list string -> Soup -> Soup.
Variable md : string -> Exn + string.

(** The white-space run at the start of [s]: the number of its newlines
    and the length of its part up to the last of them. *)
Fixpoint newlines_ahead (s : string) (pos count last : nat) : nat * nat :=
  match s with
  | EmptyString => (count, last)
  | String c s' =>
      if is_space c then
        if Ascii.eqb c "010"
        then newlines_ahead s' (S pos) (S count) (S pos)
        else newlines_ahead s' (S pos) count last
      else (count, last)
  end.

(** [re.sub(r'\n\s*\n\s*\n', '\n\n', s)]: a newline followed by white space
    that holds two more newlines is replaced, up to the last of them, by
    two newlines. *)
Fixpoint collapse_blank_lines (skip : nat) (s : string) : string :=
  match s with
  | EmptyString => EmptyString
  | String c s' =>
      match skip with
      | S k => collapse_blank_lines k s'
      | O =>
          if Ascii.eqb c "010" then
            let (count, last) := newlines_ahead s' 0 0 0 in
            if 2 <=? count
            then nl +++ nl +++ collapse_blank_lines last s'
            else String c (collapse_blank_lines 0 s')
          else String c (collapse_blank_lines 0 s')
      end
  end.

(** [re.sub(r'^\s+', '', s, flags=re.MULTILINE)]: the white space at the
    start of the text and after every newline is removed.  [bol] says that
    the position is the start of a line or inside the run being removed. *)
Fixpoint strip_line_starts (bol : bool) (s : string) : string :=
  match s with
  | EmptyString => EmptyString
  | String c s' =>
      if bol && is_space c then strip_line_starts true s'
      else String c (strip_line_starts (Ascii.eqb c "010") s')
  end.

(** [s.strip()] *)
Fixpoint lstrip_ws (s : string) : string :=
  match s with
  | String c s' => if is_space c then lstrip_ws s' else s
  | EmptyString => EmptyString
  end.

Fixpoint rstrip_ws (s : string) : string :=
  match s with
  | EmptyString => EmptyString
  | String c s' =>
      match rstrip_ws s' with
      | EmptyString => if is_space c then EmptyString else String c EmptyString
      | rest => String c rest
      end
  end.

Definition strip_ws (s : string) : string := rstrip_ws (lstrip_ws s).

(** No white space at the start of a line: none after a newline, and none
    at the very start when [bol] holds. *)
Fixpoint line_starts_clean (bol : bool) (s : string) : bool :=
  match s with
  | EmptyString => true
  | String c s' =>
      negb (bol && is_space c) && line_starts_clean (Ascii.eqb c "010") s'
  end.

Definition clean_html_content (html_content : string) : M string :=
  try_except
    (soup <- lift (BeautifulSoup html_content) ;;
     let soup := decompose ["script"; "style"; "nav"; "header"; "footer"] soup in
     let main_content := first_selected soup content_selectors in
     let main_content :=
       match main_content with
       | Some elem => el_html elem
       | None => soup_html soup
       end in
     markdown_content <- lift (md main_content) ;;
     let markdown_content := collapse_blank_lines 0 markdown_content in
     let markdown_content := strip_line_starts true markdown_content in
     ret (strip_ws markdown_content))
    (fun e =>
       log ERROR ("Error cleaning HTML content: " +++ e) ;;
       ret html_content).

End CleanHtml.

(** White space of Python strings among the first 256 characters. *)
Definition isspace (c : ascii) : bool :=
  let n := nat_of_ascii c in
  ((9 <=? n) && (n <=? 13)) || ((28 <=? n) && (n <=? 32)) ||
  (n =? 133) || (n =? 160).

End Html.

(** The text does not start with white space that [str.strip] removes. *)
Definition starts_clean (s : string) : bool :=
  match s with
  | String c _ => negb (is_space c)
  | EmptyString => true
  end.

(** Pages and stand-ins for the HTML libraries. *)
Module PageSamples.

Definition aws_info : CategoryInfo :=
  mkCategory "AWS News Blog" "https://aws.amazon.com/blogs/aws/"
             "https://aws.amazon.com/blogs/aws/feed/".

Definition security_info : CategoryInfo :=
  mkCategory "AWS Security Blog" "https://aws.amazon.com/blogs/security/"
             "https://aws.amazon.com/blogs/security/feed/".

(** A [time] element whose [datetime] attribute is no date, and an
    element of class [published] whose text is one. *)
Definition time_elem : Html.Element :=
  Html.mkElement "15 January 2024" (Some "soon") "<time>15 January 2024</time>".

Definition published_elem : Html.Element :=
  Html.mkElement " 2024-01-15 " None "<span> 2024-01-15 </span>".

Definition page : Html.Soup :=
  Html.mkSoup
    (fun name => None)
    (fun selector =>
       if String.eqb selector "time[datetime]" then Some time_elem
       else if String.eqb selector ".published" then Some published_elem
       else None)
    "<time>15 January 2024</time><span> 2024-01-15 </span>".

(** A parser that finds no element, a removal that removes nothing and a
    converter that keeps the text. *)
Definition parse_any (html : string) : Exn + Html.Soup :=
  inr (Html.mkSoup (fun name => None) (fun selector => None) html).
Definition keep_all (names : list string) (soup : Html.Soup) : Html.Soup :=
  soup.
Definition plain (html : string) : Exn + string := inr html.

(** Two indented paragraphs. *)
Definition two_paragraphs : string := " a" +++ nl +++ nl +++ " b ".

End PageSamples.

(* ================================================================= *)
(** * Facts about strings *)

Module PyStrFacts.

Lemma append_empty_r (s : string) : s +++ EmptyString = s.
Proof. induction s; simpl; congruence. Qed.

Lemma append_assoc (a b c : string) : (a +++ b) +++ c = a +++ b +++ c.
Proof. induction a; simpl; congruence. Qed.

Lemma length_append (a b : string) :
  String.length (a +++ b) = String.length a + String.length b.
Proof. induction a; simpl; congruence. Qed.

Lemma take_drop (n : nat) (s : string) : take n s +++ drop n s = s.
Proof.
  revert s; induction n as [|n IH]; intros [|a s]; simpl; trivial.
  now rewrite IH.
Qed.

Lemma take_all (n : nat) (s : string) :
  String.length s <= n -> take n s = s.
Proof.
  revert s; induction n as [|n IH]; intros [|a s]; simpl; trivial.
  - lia.
  - intros H. rewrite IH; trivial. lia.
Qed.

Lemma drop_all (n : nat) (s : string) :
  String.length s <= n -> drop n s = EmptyString.
Proof.
  revert s; induction n as [|n IH]; intros [|a s]; simpl; trivial.
  - lia.
  - intros H. apply IH. lia.
Qed.

Lemma length_take (n : nat) (s : string) :
  String.length (take n s) = Nat.min n (String.length s).
Proof.
  revert s; induction n as [|n IH]; intros [|a s]; simpl; trivial.
  now rewrite IH.
Qed.

Lemma length_drop (n : nat) (s : string) :
  String.length (drop n s) = String.length s - n.
Proof.
  revert s; induction n as [|n IH]; intros [|a s]; simpl; trivial.
Qed.

Lemma drop_drop (n m : nat) (s : string) :
  drop m (drop n s) = drop (n + m) s.
Proof.
  revert s; induction n as [|n IH]; intros s; simpl; trivial.
  destruct s as [|a s]; simpl.
  - now destruct m.
  - apply IH.
Qed.

Lemma take_append (a b : string) : take (String.length a) (a +++ b) = a.
Proof. induction a; simpl; [now destruct b | congruence]. Qed.

Lemma drop_append (a b : string) : drop (String.length a) (a +++ b) = b.
Proof. induction a; simpl; trivial. Qed.

Lemma take_append_at (n : nat) (a b : string) :
  String.length a = n -> take n (a +++ b) = a.
Proof. intros <-. apply take_append. Qed.

Lemma drop_append_at (n : nat) (a b : string) :
  String.length a = n -> drop n (a +++ b) = b.
Proof. intros <-. apply drop_append. Qed.

Lemma startswith_append (a b : string) : startswith (a +++ b) a = true.
Proof.
  induction a; simpl; [now destruct b |].
  now rewrite Ascii.eqb_refl.
Qed.

(** Decimal digits read back as the number they print. *)
Lemma to_nat_of_nat (n : nat) : to_nat (of_nat n) = Some n.
Proof.
  unfold to_nat, of_nat.
  destruct (NilEmpty.string_of_uint (Nat.to_uint n)) eqn:E.
  - exfalso.
    assert (H := NilEmpty.usu (Nat.to_uint n)). rewrite E in H.
    simpl in H. injection H as H.
    assert (H' := Unsigned.of_to n). rewrite <- H in H'. simpl in H'.
    subst n. discriminate E.
  - rewrite <- E, NilEmpty.usu. simpl. now rewrite Unsigned.of_to.
Qed.

End PyStrFacts.
Import PyStrFacts.

(* ================================================================= *)
(** * Facts about the monad *)

Section MonadFacts.
Context {A B : Type}.

Lemma bind_ret_l (a : A) (k : A -> M B) : bind (ret a) k = k a.
Proof. unfold bind, ret. simpl. now destruct (k a). Qed.

Lemma value_bind (m : M A) (k : A -> M B) (a : A) :
  value m = inr a -> value (bind m k) = value (k a).
Proof.
  destruct m as [t [e|a']]; simpl; intros H; [discriminate|].
  injection H as ->. unfold bind. now destruct (k a).
Qed.

Lemma value_try_ok (m : M A) (h : Exn -> M A) (a : A) :
  value m = inr a -> value (try_except m h) = inr a.
Proof.
  destruct m as [t [e|a']]; simpl; intros H; [discriminate|].
  now injection H as ->.
Qed.

End MonadFacts.

(** A loop whose body only ever extends the state by what [f] computes
    from the element ends with the concatenation. *)
Lemma value_for_each {A B : Type} (f : A -> list B)
      (body : list B -> A -> M (list B)) (xs : list A) :
  (forall s x, value (body s x) = inr (s ++ f x)) ->
  forall s, value (for_each xs body s) = inr (s ++ flat_map f xs).
Proof.
  intros Hbody. induction xs as [|x xs IH]; intros s; simpl.
  - now rewrite app_nil_r.
  - rewrite (value_bind _ _ (Hbody s x)), IH. now rewrite app_assoc.
Qed.

(* ================================================================= *)
(** * Facts about sorting *)

Section SortedFacts.
Context {A K : Type} (ltb : K -> K -> bool) (key : A -> K).

Lemma insert_perm (x : A) (l : list A) : Permutation (insert_desc ltb key x l) (x :: l).
Proof.
  induction l as [|y l IH]; simpl; [reflexivity|].
  destruct (ltb (key x) (key y)); [|reflexivity].
  rewrite IH. apply perm_swap.
Qed.

Lemma sorted_reverse_perm (l : list A) : Permutation (sorted_reverse ltb key l) l.
Proof.
  induction l as [|x l IH]; simpl; [reflexivity|].
  now rewrite insert_perm, IH.
Qed.

Lemma sorted_reverse_length (l : list A) : List.length (sorted_reverse ltb key l) = List.length l.
Proof. apply Permutation_length, sorted_reverse_perm. Qed.

Lemma sorted_reverse_in (x : A) (l : list A) : In x (sorted_reverse ltb key l) <-> In x l.
Proof.
  split; apply Permutation_in;
    [|symmetry]; apply sorted_reverse_perm.
Qed.

(** Stability: the elements of any class of mutually unordered keys keep
    their relative order. *)
Lemma insert_filter (P : A -> bool) (x : A) (l : list A) :
  (forall y, P x = true -> P y = true -> ltb (key x) (key y) = false) ->
  filter P (insert_desc ltb key x l) = filter P (x :: l).
Proof.
  intros HP. induction l as [|y l IH]; simpl; [reflexivity|].
  destruct (ltb (key x) (key y)) eqn:Hlt; [|reflexivity].
  simpl in *. rewrite IH.
  destruct (P x) eqn:Px, (P y) eqn:Py; trivial.
  rewrite (HP y eq_refl Py) in Hlt. discriminate.
Qed.

Lemma sorted_reverse_stable (P : A -> bool) (l : list A) :
  (forall x y, P x = true -> P y = true -> ltb (key x) (key y) = false) ->
  filter P (sorted_reverse ltb key l) = filter P l.
Proof.
  intros HP. induction l as [|x l IH]; simpl; [reflexivity|].
  rewrite insert_filter by (intros y; apply HP).
  simpl. now rewrite IH.
Qed.

(** Sortedness needs the comparison to be a strict weak order. *)
Hypothesis ltb_asym : forall a b, ltb a b = true -> ltb b a = false.
Hypothesis ltb_ntrans :
  forall a b c, ltb a b = false -> ltb b c = false -> ltb a c = false.

Lemma insert_sorted (x : A) (l : list A) :
  StronglySorted (key_ge ltb key) l -> StronglySorted (key_ge ltb key) (insert_desc ltb key x l).
Proof.
  induction 1 as [|y l Hs IH Hy]; simpl.
  - constructor; constructor.
  - destruct (ltb (key x) (key y)) eqn:Hlt.
    + constructor; trivial.
      apply Forall_forall. intros z Hz.
      apply (Permutation_in _ (insert_perm x l)) in Hz.
      destruct Hz as [<-|Hz]; [now apply ltb_asym|].
      rewrite Forall_forall in Hy. now apply Hy.
    + constructor; [now constructor|].
      constructor; trivial.
      eapply Forall_impl; [|exact Hy].
      intros z Hz. unfold key_ge in *. eapply ltb_ntrans; eassumption.
Qed.

Lemma sorted_reverse_sorted (l : list A) : StronglySorted (key_ge ltb key) (sorted_reverse ltb key l).
Proof.
  induction l as [|x l IH]; simpl; [constructor|].
  now apply insert_sorted.
Qed.
End SortedFacts.

Lemma In_firstn {A : Type} (n : nat) (l : list A) (x : A) :
  In x (firstn n l) -> In x l.
Proof.
  rewrite <- (firstn_skipn n l) at 2. intros H. apply in_or_app. now left.
Qed.

Lemma StronglySorted_weaken {A : Type} (R Q : A -> A -> Prop) (l : list A) :
  (forall a b, R a b -> Q a b) -> StronglySorted R l -> StronglySorted Q l.
Proof.
  intros HRQ. induction 1 as [|x l Hs IH Hx]; constructor; trivial.
  eapply Forall_impl; [|exact Hx]. intros b. apply HRQ.
Qed.

Lemma StronglySorted_firstn {A : Type} (R : A -> A -> Prop) (n : nat)
      (l : list A) :
  StronglySorted R l -> StronglySorted R (firstn n l).
Proof.
  intros H. revert n. induction H as [|x l Hs IH Hx]; intros [|n]; simpl;
    try constructor.
  - apply IH.
  - rewrite Forall_forall in *. intros y Hy. apply Hx.
    eapply In_firstn, Hy.
Qed.

(** In a sorted list an element comes before every element it does not
    dominate. *)
Lemma StronglySorted_nth {A : Type} (R : A -> A -> Prop) (l : list A) :
  StronglySorted R l ->
  forall i j a b,
    nth_error l i = Some a -> nth_error l j = Some b -> i < j -> R a b.
Proof.
  induction 1 as [|x l Hs IH Hx]; intros i j a b Hi Hj Hlt.
  - now destruct i.
  - destruct j as [|j]; [lia|]. simpl in Hj.
    destruct i as [|i]; simpl in Hi.
    + injection Hi as <-. rewrite Forall_forall in Hx.
      apply Hx. eapply nth_error_In, Hj.
    + apply (IH i j); trivial. lia.
Qed.

(* ================================================================= *)
(** * The two orders are strict weak orders *)

Lemma nat_ltb_asym (a b : nat) : (a <? b) = true -> (b <? a) = false.
Proof. rewrite Nat.ltb_lt, Nat.ltb_ge. lia. Qed.

Lemma nat_ltb_ntrans (a b c : nat) :
  (a <? b) = false -> (b <? c) = false -> (a <? c) = false.
Proof. rewrite !Nat.ltb_ge. lia. Qed.

Lemma lex_ltb_asym (a b : list nat) :
  lex_ltb a b = true -> lex_ltb b a = false.
Proof.
  revert b. induction a as [|x a IH]; intros [|y b]; simpl; trivial;
    try discriminate.
  destruct (Nat.ltb_spec x y), (Nat.ltb_spec y x),
    (Nat.eqb_spec x y), (Nat.eqb_spec y x); simpl; trivial; try lia.
  apply IH.
Qed.

Lemma lex_ltb_ntrans (a b c : list nat) :
  lex_ltb a b = false -> lex_ltb b c = false -> lex_ltb a c = false.
Proof.
  revert b c. induction a as [|x a IH]; intros [|y b] [|z c]; simpl; trivial;
    try discriminate.
  destruct (Nat.ltb_spec x y), (Nat.ltb_spec y z), (Nat.ltb_spec x z),
    (Nat.eqb_spec x y), (Nat.eqb_spec y z), (Nat.eqb_spec x z);
    simpl; trivial; try discriminate; try lia.
  apply IH.
Qed.

Lemma datetime_ltb_asym (a b : datetime) :
  datetime_ltb a b = true -> datetime_ltb b a = false.
Proof. apply lex_ltb_asym. Qed.

Lemma datetime_ltb_ntrans (a b c : datetime) :
  datetime_ltb a b = false -> datetime_ltb b c = false ->
  datetime_ltb a c = false.
Proof. apply lex_ltb_ntrans. Qed.

Lemma sorted_by_relevance (l : list SearchResult) :
  StronglySorted by_relevance (sorted_reverse Nat.ltb relevance_key l).
Proof.
  eapply StronglySorted_weaken;
    [|apply sorted_reverse_sorted; [apply nat_ltb_asym | apply nat_ltb_ntrans]].
  intros a b H. unfold key_ge in H. now apply Nat.ltb_ge in H.
Qed.

Lemma sorted_by_published (l : list BlogPost) :
  StronglySorted by_published (sorted_reverse datetime_ltb published_key l).
Proof.
  apply sorted_reverse_sorted;
    [apply datetime_ltb_asym | apply datetime_ltb_ntrans].
Qed.

(* ================================================================= *)
(** * Facts about the helpers and the tools *)

Section ServerFacts.
Variable lower : string -> string.

(** ** Scoring *)

Lemma entry_score_cases (query_lower : string) (entry : FeedEntry) :
  entry_score lower query_lower entry =
  (if str_in query_lower (lower (get (fe_title entry) "")) then 2 else 0) +
  (if str_in query_lower (lower (get (fe_summary entry) "")) then 1 else 0).
Proof.
  unfold entry_score.
  now destruct (str_in _ (lower (get (fe_title entry) ""))),
    (str_in _ (lower (get (fe_summary entry) ""))).
Qed.

Lemma entry_score_le_3 (query_lower : string) (entry : FeedEntry) :
  entry_score lower query_lower entry <= 3.
Proof.
  rewrite entry_score_cases.
  now destruct (str_in _ (lower (get (fe_title entry) ""))),
    (str_in _ (lower (get (fe_summary entry) ""))); simpl; lia.
Qed.

(** ** The loops and the dates *)

(** The search loop is a filter followed by a map when every entry that
    scores has a time tuple the constructor accepts, and raises
    otherwise. *)
Lemma search_entries_valid (query_lower : string) (entries : list FeedEntry) :
  forallb valid_date
          (filter (fun e => 0 <? entry_score lower query_lower e) entries)
  = true ->
  search_entries lower query_lower entries =
  inr (map (fun e =>
              search_result_of e (date_of e)
                               (entry_score lower query_lower e))
           (filter (fun e => 0 <? entry_score lower query_lower e) entries)).
Proof.
  induction entries as [|e entries IH]; simpl; trivial.
  destruct (0 <? entry_score lower query_lower e); simpl; trivial.
  unfold valid_date, date_of.
  destruct (entry_published_date e); simpl; [discriminate|].
  intros H. now rewrite (IH H).
Qed.

Lemma search_entries_invalid (query_lower : string)
      (entries : list FeedEntry) :
  forallb valid_date
          (filter (fun e => 0 <? entry_score lower query_lower e) entries)
  = false ->
  exists e, search_entries lower query_lower entries = inl e.
Proof.
  induction entries as [|e entries IH]; simpl; [discriminate|].
  destruct (0 <? entry_score lower query_lower e); simpl; trivial.
  unfold valid_date.
  destruct (entry_published_date e) as [err|d]; simpl; [eauto|].
  intros H. destruct (IH H) as [err ->]. eauto.
Qed.

(** Every result of the loop was built from an entry that scored. *)
Lemma search_entries_origin (query_lower : string)
      (entries : list FeedEntry) (results : list SearchResult)
      (r : SearchResult) :
  search_entries lower query_lower entries = inr results ->
  In r results ->
  exists e, In e entries /\ 0 < entry_score lower query_lower e /\
            r = search_result_of e (date_of e)
                                 (entry_score lower query_lower e).
Proof.
  revert results.
  induction entries as [|e entries IH]; simpl; intros results.
  - now intros [= <-].
  - destruct (Nat.ltb_spec 0 (entry_score lower query_lower e)) as [Hs|_].
    + unfold date_of at 1.
      destruct (entry_published_date e) as [err|d] eqn:Hd; [discriminate|].
      destruct (search_entries lower query_lower entries) as [err|rs];
        [discriminate|].
      intros [= <-] [<-|Hr].
      * exists e. unfold date_of. rewrite Hd. auto.
      * destruct (IH rs eq_refl Hr) as (e' & ? & ? & ?). eauto.
    + intros H Hr. destruct (IH results H Hr) as (e' & ? & ? & ?). eauto.
Qed.

Lemma posts_of_entries_valid (rss_url : string) (entries : list FeedEntry) :
  forallb valid_date entries = true ->
  posts_of_entries rss_url entries =
  inr (map (fun e => blog_post_of rss_url e (date_of e)) entries).
Proof.
  induction entries as [|e entries IH]; simpl; trivial.
  unfold valid_date, date_of.
  destruct (entry_published_date e); simpl; [discriminate|].
  intros H. now rewrite (IH H).
Qed.

Lemma posts_of_entries_invalid (rss_url : string)
      (entries : list FeedEntry) :
  forallb valid_date entries = false ->
  exists e, posts_of_entries rss_url entries = inl e.
Proof.
  induction entries as [|e entries IH]; simpl; [discriminate|].
  unfold valid_date.
  destruct (entry_published_date e) as [err|d]; simpl; [eauto|].
  intros H. destruct (IH H) as [err ->]. eauto.
Qed.

Lemma posts_of_entries_origin (rss_url : string) (entries : list FeedEntry)
      (posts : list BlogPost) (p : BlogPost) :
  posts_of_entries rss_url entries = inr posts ->
  In p posts ->
  exists e, In e entries /\ p = blog_post_of rss_url e (date_of e).
Proof.
  revert posts.
  induction entries as [|e entries IH]; simpl; intros posts.
  - now intros [= <-].
  - destruct (entry_published_date e) as [err|d] eqn:Hd; [discriminate|].
    destruct (posts_of_entries rss_url entries) as [err|ps]; [discriminate|].
    intros [= <-] [<-|Hp].
    + exists e. unfold date_of. rewrite Hd. auto.
    + destruct (IH ps eq_refl Hp) as (e' & ? & ?). eauto.
Qed.

(** ** The helpers: they catch every exception *)

(** What a feed contributes: nothing when its retrieval fails or a date
    cannot be built, otherwise what the loop keeps of the entries. *)
Lemma feed_contribution_eq (net : Net) (query : string) (limit : nat)
      (rss_url : string) :
  feed_contribution lower net query limit rss_url =
  match net rss_url with
  | inl _ => []
  | inr entries =>
      match search_entries lower (lower query) (firstn (limit * 2) entries)
      with
      | inl _ => []
      | inr results => firstn limit results
      end
  end.
Proof.
  unfold feed_contribution, returned, _search_rss_feed, fetch_feed.
  destruct (net rss_url) as [e|entries]; [reflexivity|]. cbn.
  now destruct (search_entries lower (lower query)
                               (firstn (limit * 2) entries)).
Qed.

Lemma posts_contribution_eq (net : Net) (limit : nat) (rss_url : string) :
  posts_contribution net limit rss_url =
  match net rss_url with
  | inl _ => []
  | inr entries =>
      match posts_of_entries rss_url (firstn limit entries) with
      | inl _ => []
      | inr posts => posts
      end
  end.
Proof.
  unfold posts_contribution, returned, _get_posts_from_rss, fetch_feed.
  destruct (net rss_url) as [e|entries]; [reflexivity|]. cbn.
  now destruct (posts_of_entries rss_url (firstn limit entries)).
Qed.

Lemma _search_rss_feed_value (net : Net) (rss_url query : string)
      (limit : nat) :
  value (_search_rss_feed lower net rss_url query limit) =
  inr (feed_contribution lower net query limit rss_url).
Proof.
  unfold feed_contribution, returned, _search_rss_feed, fetch_feed.
  destruct (net rss_url) as [e|entries]; [reflexivity|]. cbn.
  now destruct (search_entries lower (lower query)
                               (firstn (limit * 2) entries)).
Qed.

Lemma _get_posts_from_rss_value (net : Net) (rss_url : string)
      (limit : nat) :
  value (_get_posts_from_rss net rss_url limit) =
  inr (posts_contribution net limit rss_url).
Proof.
  unfold posts_contribution, returned, _get_posts_from_rss, fetch_feed.
  destruct (net rss_url) as [e|entries]; [reflexivity|]. cbn.
  now destruct (posts_of_entries rss_url (firstn limit entries)).
Qed.

(** A feed whose dates can all be built contributes its entries. *)
Lemma feed_contribution_valid (net : Net) (query : string) (limit : nat)
      (rss_url : string) (entries : list FeedEntry) :
  net rss_url = inr entries ->
  forallb valid_date (scoring lower query (firstn (limit * 2) entries))
  = true ->
  feed_contribution lower net query limit rss_url
  = kept_matches lower entries query limit.
Proof.
  intros Hnet Hvalid. rewrite feed_contribution_eq, Hnet.
  unfold scoring in Hvalid. now rewrite (search_entries_valid _ _ Hvalid).
Qed.

Lemma feed_contribution_invalid (net : Net) (query : string) (limit : nat)
      (rss_url : string) (entries : list FeedEntry) :
  net rss_url = inr entries ->
  forallb valid_date (scoring lower query (firstn (limit * 2) entries))
  = false ->
  feed_contribution lower net query limit rss_url = [].
Proof.
  intros Hnet Hinvalid. rewrite feed_contribution_eq, Hnet.
  unfold scoring in Hinvalid.
  now destruct (search_entries_invalid _ _ Hinvalid) as [e ->].
Qed.

Lemma posts_contribution_valid (net : Net) (limit : nat) (rss_url : string)
      (entries : list FeedEntry) :
  net rss_url = inr entries ->
  forallb valid_date (firstn limit entries) = true ->
  posts_contribution net limit rss_url = listed_posts rss_url entries limit.
Proof.
  intros Hnet Hvalid. rewrite posts_contribution_eq, Hnet.
  now rewrite (posts_of_entries_valid _ _ Hvalid).
Qed.

Lemma posts_contribution_invalid (net : Net) (limit : nat)
      (rss_url : string) (entries : list FeedEntry) :
  net rss_url = inr entries ->
  forallb valid_date (firstn limit entries) = false ->
  posts_contribution net limit rss_url = [].
Proof.
  intros Hnet Hinvalid. rewrite posts_contribution_eq, Hnet.
  now destruct (posts_of_entries_invalid rss_url _ Hinvalid) as [e ->].
Qed.

Lemma feed_contribution_origin (net : Net) (query : string) (limit : nat)
      (rss_url : string) (r : SearchResult) :
  In r (feed_contribution lower net query limit rss_url) ->
  exists entries e,
    net rss_url = inr entries /\ In e entries /\
    0 < entry_score lower (lower query) e /\
    r = search_result_of e (date_of e) (entry_score lower (lower query) e).
Proof.
  rewrite feed_contribution_eq. destruct (net rss_url) as [|entries]; [easy|].
  destruct (search_entries lower (lower query) (firstn (limit * 2) entries))
    as [|results] eqn:Hs; [easy|].
  intros H. apply In_firstn in H.
  eapply search_entries_origin in H; [|exact Hs].
  destruct H as (e & He & Hpos & ->).
  exists entries, e. repeat split; trivial. eapply In_firstn, He.
Qed.

Lemma posts_contribution_origin (net : Net) (limit : nat)
      (rss_url : string) (p : BlogPost) :
  In p (posts_contribution net limit rss_url) ->
  exists entries e,
    net rss_url = inr entries /\ In e (firstn limit entries) /\
    p = blog_post_of rss_url e (date_of e).
Proof.
  rewrite posts_contribution_eq. destruct (net rss_url) as [|entries]; [easy|].
  destruct (posts_of_entries rss_url (firstn limit entries))
    as [|posts] eqn:Hs; [easy|].
  intros H. eapply posts_of_entries_origin in H; [|exact Hs].
  destruct H as (e & He & ->).
  exists entries, e. auto.
Qed.

Lemma posts_of_entries_length (rss_url : string) (entries : list FeedEntry)
      (posts : list BlogPost) :
  posts_of_entries rss_url entries = inr posts ->
  List.length posts = List.length entries.
Proof.
  revert posts. induction entries as [|e entries IH]; simpl; intros posts.
  - now intros [= <-].
  - destruct (entry_published_date e); [discriminate|].
    destruct (posts_of_entries rss_url entries) as [|ps]; [discriminate|].
    intros [= <-]. simpl. now rewrite (IH ps).
Qed.

Lemma posts_contribution_length (net : Net) (limit : nat)
      (rss_url : string) :
  List.length (posts_contribution net limit rss_url) <= limit.
Proof.
  rewrite posts_contribution_eq. destruct (net rss_url); [simpl; lia|].
  destruct (posts_of_entries rss_url (firstn limit l)) eqn:H; [simpl; lia|].
  rewrite (posts_of_entries_length _ _ H). apply firstn_le_length.
Qed.

Lemma feed_contribution_length (net : Net) (query : string) (limit : nat)
      (rss_url : string) :
  List.length (feed_contribution lower net query limit rss_url) <= limit.
Proof.
  rewrite feed_contribution_eq. destruct (net rss_url); [simpl; lia|].
  destruct (search_entries _ _ _); [simpl; lia | apply firstn_le_length].
Qed.

(** ** The registry *)

Lemma registry_known (key : string) (info : CategoryInfo) :
  dict_lookup AWS_BLOG_CATEGORIES key = Some info ->
  known_category (Some key) = Some key.
Proof.
  intros H. unfold known_category, dict_mem. rewrite H.
  destruct key; [discriminate H | reflexivity].
Qed.

Lemma known_category_lookup (category : option string) (c : string) :
  known_category category = Some c ->
  category = Some c /\
  exists info, dict_lookup AWS_BLOG_CATEGORIES c = Some info.
Proof.
  unfold known_category, dict_mem. destruct category as [k|]; [|easy].
  destruct (truthy (Some k)); cbn [andb]; [|easy].
  destruct (dict_lookup AWS_BLOG_CATEGORIES k) as [info|] eqn:E; [|easy].
  intros [= <-]. eauto.
Qed.

(** ** [search_blog_posts] *)

Lemma search_fan_out_value (net : Net) (query : string) (n : nat) :
  value
    (for_each (firstn 5 (dict_keys AWS_BLOG_CATEGORIES))
       (fun results cat =>
          try_except
            (info <- registry cat ;;
             feed_results <-
               _search_rss_feed lower net (cat_rss info) query n ;;
             ret (results ++ feed_results))
            (fun e =>
               log WARNING
                   ("Error searching category " +++ cat +++ ": " +++ e) ;;
               ret results))
       []) =
  inr (flat_map (feed_contribution lower net query n) selected_feeds).
Proof.
  rewrite (value_for_each
             (fun cat =>
                match dict_lookup AWS_BLOG_CATEGORIES cat with
                | Some info =>
                    feed_contribution lower net query n (cat_rss info)
                | None => []
                end)).
  - reflexivity.
  - intros s cat. unfold registry.
    destruct (dict_lookup AWS_BLOG_CATEGORIES cat) as [info|].
    + apply value_try_ok. rewrite bind_ret_l.
      now rewrite (value_bind _ _ (_search_rss_feed_value _ _ _ _)).
    + now rewrite app_nil_r.
Qed.

Lemma search_blog_posts_value (net : Net) (query : string)
      (category : option string) (limit : nat) :
  value (search_blog_posts lower net query category limit) =
  inr (firstn limit
         (sorted_reverse Nat.ltb relevance_key
            (search_merged lower net query category limit))).
Proof.
  unfold search_blog_posts, search_merged.
  apply value_try_ok. unfold log, emit.
  rewrite (value_bind _ _ (a := tt)) by reflexivity.
  destruct (known_category category) as [c|] eqn:Hc.
  - apply known_category_lookup in Hc as (_ & info & Hinfo).
    unfold registry. rewrite Hinfo, bind_ret_l.
    erewrite value_bind; [reflexivity|].
    now rewrite (value_bind _ _ (_search_rss_feed_value _ _ _ _)).
  - erewrite value_bind; [reflexivity|].
    apply search_fan_out_value.
Qed.

(** ** [get_recent_posts] *)

Lemma get_recent_posts_value (net : Net) (category : option string)
      (limit : nat) :
  value (get_recent_posts net category limit) =
  inr (firstn limit
         (sorted_reverse datetime_ltb published_key
            (recent_merged net category limit))).
Proof.
  unfold get_recent_posts, recent_merged.
  apply value_try_ok. unfold log, emit.
  rewrite (value_bind _ _ (a := tt)) by reflexivity.
  destruct (known_category category) as [c|] eqn:Hc.
  - apply known_category_lookup in Hc as (_ & info & Hinfo).
    unfold registry. rewrite Hinfo, bind_ret_l.
    erewrite value_bind; [reflexivity|].
    now rewrite (value_bind _ _ (_get_posts_from_rss_value _ _ _)).
  - erewrite value_bind; [reflexivity|].
    rewrite (value_for_each
               (fun item : string * CategoryInfo =>
                  posts_contribution net (limit / 5 + 1)
                                     (cat_rss (snd item)))).
    + reflexivity.
    + intros s [cat_slug cat_info]. apply value_try_ok.
      now rewrite (value_bind _ _ (_get_posts_from_rss_value _ _ _)).
Qed.

End ServerFacts.

(* ================================================================= *)
(** * Search: ranking, scores, exclusion *)

Section SearchProperties.
Variable lower : string -> string.

(** Every result the tool returns was built from an entry of a feed that
    scored, and carries that score. *)
Lemma search_output_origin (net : Net) (query : string)
      (category : option string) (limit : nat) (r : SearchResult) :
  In r (firstn limit
          (sorted_reverse Nat.ltb relevance_key
             (search_merged lower net query category limit))) ->
  exists e,
    0 < entry_score lower (lower query) e /\
    r = search_result_of e (date_of e) (entry_score lower (lower query) e).
Proof.
  intros H. apply In_firstn, sorted_reverse_in in H.
  unfold search_merged in H.
  destruct (known_category category) as [c|].
  - destruct (dict_lookup AWS_BLOG_CATEGORIES c) as [info|]; [|easy].
    apply feed_contribution_origin in H as (? & e & _ & _ & ? & ?); eauto.
  - apply in_flat_map in H as (rss_url & _ & H).
    apply feed_contribution_origin in H as (? & e & _ & _ & ? & ?); eauto.
Qed.

(** C1, as amended.  For a known category whose feed is retrieved, the
    helper builds a result for every entry that scores among the first
    [n * 2].  When the constructor [datetime] accepts the time tuple of
    each of them, the tool returns the first [n] of these results, in feed
    order, sorted by score descending; the sort is stable, so results of
    equal score keep the feed order.  The helper truncates to [n] before
    the tool sorts.  When the constructor refuses one of the time tuples,
    the helper's handler discards the feed and the tool returns the empty
    list. *)
Theorem single_category_search (net : Net) (query c : string)
        (info : CategoryInfo) (entries : list FeedEntry) (n : nat) :
  dict_lookup AWS_BLOG_CATEGORIES c = Some info ->
  net (cat_rss info) = inr entries ->
  exists results,
    value (search_blog_posts lower net query (Some c) n) = inr results /\
    (forallb valid_date (scoring lower query (firstn (n * 2) entries)) = true ->
     results =
       sorted_reverse Nat.ltb relevance_key
                      (kept_matches lower entries query n) /\
     Permutation results (kept_matches lower entries query n) /\
     StronglySorted by_relevance results /\
     forall score,
       filter (fun r => relevance_key r =? score) results =
       filter (fun r => relevance_key r =? score)
              (kept_matches lower entries query n)) /\
    (forallb valid_date (scoring lower query (firstn (n * 2) entries)) = false ->
     results = []).
Proof.
  intros Hc Hnet.
  assert (Hvalue :
            value (search_blog_posts lower net query (Some c) n)
            = inr (sorted_reverse Nat.ltb relevance_key
                     (feed_contribution lower net query n (cat_rss info)))).
  { rewrite search_blog_posts_value. unfold search_merged.
    rewrite (registry_known _ Hc), Hc.
    rewrite firstn_all2; trivial.
    rewrite sorted_reverse_length. apply feed_contribution_length. }
  eexists. split; [exact Hvalue|]. split.
  - intros Hvalid. rewrite (@feed_contribution_valid lower net query n _ entries Hnet Hvalid).
    split; [reflexivity|split; [|split]].
    + apply sorted_reverse_perm.
    + apply sorted_by_relevance.
    + intros score. apply sorted_reverse_stable.
      intros x y Hx Hy. apply Nat.eqb_eq in Hx, Hy.
      rewrite Hx, Hy. apply Nat.ltb_irrefl.
  - intros Hinvalid.
    now rewrite (@feed_contribution_invalid lower net query n _ entries Hnet Hinvalid).
Qed.

(** C4.  The score of an entry is 2 when the query occurs (ignoring case)
    in the title only, 1 when in the summary only, 3 when in both; an
    entry in which it occurs in neither scores 0, is skipped by the loop,
    and no result with its title and summary is ever returned. *)
Theorem relevance_scoring (query : string) (entry : FeedEntry) :
  let title := get (fe_title entry) "" in
  let summary := get (fe_summary entry) "" in
  let score := entry_score lower (lower query) entry in
  (matches lower query title = true /\ matches lower query summary = false ->
   score = 2) /\
  (matches lower query title = false /\ matches lower query summary = true ->
   score = 1) /\
  (matches lower query title = true /\ matches lower query summary = true ->
   score = 3) /\
  (matches lower query title = false /\ matches lower query summary = false ->
   score = 0 /\
   search_entries lower (lower query) [entry] = inr [] /\
   forall net category limit results r,
     value (search_blog_posts lower net query category limit) = inr results ->
     In r results ->
     ~ (sr_title r = title /\ sr_summary r = Some summary)).
Proof.
  cbn zeta. unfold matches. rewrite entry_score_cases.
  repeat split; try (intros [-> ->]; reflexivity).
  - destruct H as [-> ->]. reflexivity.
  - simpl. rewrite entry_score_cases. destruct H as [-> ->]. reflexivity.
  - destruct H as [Ht Hs].
    intros net category limit results r Hv Hr [Htitle Hsummary].
    rewrite search_blog_posts_value in Hv. injection Hv as <-.
    apply search_output_origin in Hr as (e & Hpos & ->).
    simpl in Htitle, Hsummary. injection Hsummary as Hsummary.
    rewrite entry_score_cases, Htitle, Hsummary, Ht, Hs in Hpos.
    simpl in Hpos. lia.
Qed.

(** C9.  Every result [search_blog_posts] returns carries a relevance
    score, and the score is 1, 2 or 3; the tool itself never raises. *)
Theorem relevance_score_range (net : Net) (query : string)
        (category : option string) (limit : nat) :
  exists results,
    value (search_blog_posts lower net query category limit) = inr results /\
    forall r, In r results ->
              sr_relevance_score r = Some 1 \/
              sr_relevance_score r = Some 2 \/
              sr_relevance_score r = Some 3.
Proof.
  eexists. split; [apply search_blog_posts_value|].
  intros r Hr. apply search_output_origin in Hr as (e & Hpos & ->).
  simpl. assert (H3 := entry_score_le_3 lower (lower query) e).
  destruct (entry_score lower (lower query) e) as [|[|[|[|?]]]]; auto; lia.
Qed.

End SearchProperties.

(** Witness of [single_category_search]: the category [aws] with a feed of
    two entries, limit 1. *)
Lemma single_category_search_witness :
  dict_lookup AWS_BLOG_CATEGORIES "aws" =
    Some (mkCategory "AWS News Blog" "https://aws.amazon.com/blogs/aws/"
                     Samples.aws_feed) /\
  Samples.only_aws [Samples.roundup; Samples.launch] Samples.aws_feed =
    inr [Samples.roundup; Samples.launch] /\
  forallb valid_date
          (scoring Samples.ascii_lower "lambda"
                   (firstn (1 * 2) [Samples.roundup; Samples.launch])) = true /\
  exists results,
    value (search_blog_posts Samples.ascii_lower
             (Samples.only_aws [Samples.roundup; Samples.launch])
             "lambda" (Some "aws") 1) = inr results /\
    Permutation results [search_result_of Samples.roundup None 1].
Proof.
  split; [reflexivity|]. split; [reflexivity|]. split; [reflexivity|].
  destruct (@single_category_search Samples.ascii_lower
              (Samples.only_aws [Samples.roundup; Samples.launch])
              "lambda" "aws"
              (mkCategory "AWS News Blog" "https://aws.amazon.com/blogs/aws/"
                          Samples.aws_feed)
              [Samples.roundup; Samples.launch] 1 eq_refl eq_refl)
    as (results & Hv & Hvalid & _).
  destruct (Hvalid eq_refl) as (_ & Hperm & _).
  exists results. split; [exact Hv | exact Hperm].
Defined.

(** C1 as stated fails: with limit 1 and a feed whose first entry matches in
    the summary only (score 1) and whose second matches in the title
    (score 2), both among the first two entries, the tool returns the first
    entry, while sorting before truncating would return the second. *)
Lemma single_category_search_truncates_before_sorting :
  value (search_blog_posts Samples.ascii_lower
           (Samples.only_aws [Samples.roundup; Samples.launch])
           "lambda" (Some "aws") 1)
  = inr [search_result_of Samples.roundup None 1] /\
  spec_single_category_search Samples.ascii_lower
    [Samples.roundup; Samples.launch] "lambda" 1
  = [search_result_of Samples.launch None 2] /\
  search_result_of Samples.roundup None 1
  <> search_result_of Samples.launch None 2.
Proof.
  split; [vm_compute; reflexivity|].
  split; [vm_compute; reflexivity|].
  discriminate.
Qed.

(** The four cases of the scoring on sample entries. *)
Example score_title_only :
  entry_score Samples.ascii_lower "lambda" Samples.launch = 2.
Proof. reflexivity. Qed.

Example score_summary_only :
  entry_score Samples.ascii_lower "lambda" Samples.roundup = 1.
Proof. reflexivity. Qed.

Example score_both :
  entry_score Samples.ascii_lower "lambda" Samples.guide = 3.
Proof. reflexivity. Qed.

Example score_neither :
  entry_score Samples.ascii_lower "lambda" Samples.undated = 0.
Proof. reflexivity. Qed.

(** A matching entry whose time tuple has the year 0 empties its feed: the
    constructor raises inside the helper's [try], the handler logs the
    exception and returns the empty list.  An entry that does not match is
    not given a date, so its time tuple does no harm. *)
Example year_zero_empties_the_search :
  _search_rss_feed Samples.ascii_lower
    (Samples.only_aws [Samples.launch; Samples.year_zero])
    Samples.aws_feed "lambda" 5
  = ([ HttpGet Samples.aws_feed;
       LogRecord ERROR
         ("Error searching RSS feed https://aws.amazon.com/blogs/aws/feed/: "
          +++ "year 0 is out of range") ],
     inr []) /\
  value (_search_rss_feed Samples.ascii_lower
           (Samples.only_aws [Samples.launch; Samples.year_zero])
           Samples.aws_feed "launches" 5)
  = inr [search_result_of Samples.launch None 2].
Proof. split; vm_compute; reflexivity. Qed.

Example year_zero_empties_the_listing :
  _get_posts_from_rss (Samples.only_aws [Samples.launch; Samples.year_zero])
                      Samples.aws_feed 5
  = ([ HttpGet Samples.aws_feed;
       LogRecord ERROR
         ("Error getting posts from RSS feed "
          +++ "https://aws.amazon.com/blogs/aws/feed/: "
          +++ "year 0 is out of range") ],
     inr []) /\
  value (_get_posts_from_rss
           (Samples.only_aws [Samples.launch; Samples.year_zero])
           Samples.aws_feed 1)
  = inr [blog_post_of Samples.aws_feed Samples.launch None].
Proof. split; vm_compute; reflexivity. Qed.

(* ================================================================= *)
(** * Fan-out: shares and failures *)

Lemma flat_map_remove {B : Type} (f : string -> list B) (x : string)
      (l : list string) :
  f x = [] -> flat_map f (remove string_dec x l) = flat_map f l.
Proof.
  intros Hx. induction l as [|y l IH]; simpl; trivial.
  destruct (string_dec x y) as [<-|]; simpl; rewrite IH; trivial.
  now rewrite Hx.
Qed.

Lemma firstn_nonempty {B : Type} (n : nat) (l : list B) :
  0 < n -> l <> [] -> firstn n l <> [].
Proof. destruct n, l; simpl; easy. Qed.

Section FanOutProperties.
Variable lower : string -> string.

(** C6.  In a fan-out of [search_blog_posts] or [get_recent_posts], a
    selected feed whose retrieval fails is skipped: the tool still returns
    a value, which is the merge (sort, then truncation to [limit]) of what
    the helpers return for the other selected feeds.  So every result of
    the other feeds is in the output when they fit the limit, and the
    output is not empty when there is a result at all.  One of the other
    feeds, when it is retrieved and the constructor [datetime] accepts the
    time tuples of its entries, contributes the results of its entries
    that score, and the posts of its entries. *)
Theorem fan_out_skips_failed_feed (net : Net) (query : string)
        (category : option string) (limit : nat) (failed : string)
        (e : Exn) :
  known_category category = None ->
  In failed selected_feeds ->
  net failed = inl e ->
  let others := remove string_dec failed selected_feeds in
  let found :=
    flat_map (feed_contribution lower net query (limit / 11 + 1)) others in
  let listed := flat_map (posts_contribution net (limit / 5 + 1)) others in
  exists results posts,
    value (search_blog_posts lower net query category limit) = inr results /\
    value (get_recent_posts net category limit) = inr posts /\
    results = firstn limit (sorted_reverse Nat.ltb relevance_key found) /\
    posts = firstn limit (sorted_reverse datetime_ltb published_key listed) /\
    (List.length found <= limit -> forall r, In r found -> In r results) /\
    (List.length listed <= limit -> forall p, In p listed -> In p posts) /\
    (0 < limit -> found <> [] -> results <> []) /\
    (0 < limit -> listed <> [] -> posts <> []) /\
    (forall rss_url entries,
        net rss_url = inr entries ->
        forallb valid_date
                (scoring lower query
                         (firstn ((limit / 11 + 1) * 2) entries)) = true ->
        value (_search_rss_feed lower net rss_url query (limit / 11 + 1))
        = inr (kept_matches lower entries query (limit / 11 + 1)) /\
        feed_contribution lower net query (limit / 11 + 1) rss_url
        = kept_matches lower entries query (limit / 11 + 1)) /\
    (forall rss_url entries,
        net rss_url = inr entries ->
        forallb valid_date (firstn (limit / 5 + 1) entries) = true ->
        value (_get_posts_from_rss net rss_url (limit / 5 + 1))
        = inr (listed_posts rss_url entries (limit / 5 + 1)) /\
        posts_contribution net (limit / 5 + 1) rss_url
        = listed_posts rss_url entries (limit / 5 + 1)).
Proof.
  intros Hcat _ Hfail others found listed.
  exists (firstn limit (sorted_reverse Nat.ltb relevance_key found)),
    (firstn limit (sorted_reverse datetime_ltb published_key listed)).
  split; [|split; [|split; [reflexivity|split; [reflexivity|]]]].
  - rewrite search_blog_posts_value. unfold search_merged. rewrite Hcat.
    unfold found, others. rewrite flat_map_remove; trivial.
    rewrite feed_contribution_eq. now rewrite Hfail.
  - rewrite get_recent_posts_value. unfold recent_merged. rewrite Hcat.
    unfold listed, others. rewrite flat_map_remove; trivial.
    rewrite posts_contribution_eq. now rewrite Hfail.
  - repeat split.
    + intros Hlen r Hr. rewrite firstn_all2.
      * now apply sorted_reverse_in.
      * now rewrite sorted_reverse_length.
    + intros Hlen p Hp. rewrite firstn_all2.
      * now apply sorted_reverse_in.
      * now rewrite sorted_reverse_length.
    + intros Hlimit Hfound. apply firstn_nonempty; trivial.
      intros Hnil. apply Hfound.
      apply Permutation_nil. rewrite <- Hnil.
      apply sorted_reverse_perm.
    + intros Hlimit Hlisted. apply firstn_nonempty; trivial.
      intros Hnil. apply Hlisted.
      apply Permutation_nil. rewrite <- Hnil.
      apply sorted_reverse_perm.
    + rewrite _search_rss_feed_value.
      now rewrite (@feed_contribution_valid lower net query _ _ entries).
    + now apply feed_contribution_valid.
    + rewrite _get_posts_from_rss_value.
      now rewrite (@posts_contribution_valid net _ _ entries).
    + now apply posts_contribution_valid.
Qed.

End FanOutProperties.

(** Witness of [fan_out_skips_failed_feed]: only the feed of [aws] can be
    retrieved, the feed of [architecture] fails; the result and the post of
    the [aws] feed are returned. *)
Lemma fan_out_skips_failed_feed_witness :
  known_category None = None /\
  In Samples.architecture_feed selected_feeds /\
  Samples.only_aws [Samples.launch] Samples.architecture_feed =
    inl "503 Service Unavailable" /\
  exists results posts,
    value (search_blog_posts Samples.ascii_lower
             (Samples.only_aws [Samples.launch]) "lambda" None 10)
      = inr results /\
    value (get_recent_posts (Samples.only_aws [Samples.launch]) None 10)
      = inr posts /\
    In (search_result_of Samples.launch None 2) results /\
    In (blog_post_of Samples.aws_feed Samples.launch None) posts.
Proof.
  split; [reflexivity|].
  split; [right; left; reflexivity|].
  split; [reflexivity|].
  destruct (@fan_out_skips_failed_feed Samples.ascii_lower
              (Samples.only_aws [Samples.launch]) "lambda" None 10
              Samples.architecture_feed "503 Service Unavailable"
              eq_refl (or_intror (or_introl eq_refl)) eq_refl)
    as (results & posts & Hr & Hp & _ & _ & Hin_r & Hin_p & _).
  exists results, posts.
  split; [exact Hr|]. split; [exact Hp|].
  split.
  - apply Hin_r; vm_compute; [lia | left; reflexivity].
  - apply Hin_p; vm_compute; [lia | left; reflexivity].
Defined.

(** C2 at the default limit.  With [limit = 10] and no category,
    [search_blog_posts] asks each feed for [10 // 11 + 1 = 1] result: the
    divisor is the length of the whole registry, not the number of feeds
    visited.  A feed with three matching entries contributes one result,
    where a share of [10 // 5 + 1 = 3] would keep all three. *)
Lemma search_fan_out_share_at_limit_10 :
  value (search_blog_posts Samples.ascii_lower
           (Samples.only_aws [Samples.launch; Samples.guide; Samples.roundup])
           "lambda" None 10)
  = inr [search_result_of Samples.launch None 2] /\
  feed_contribution Samples.ascii_lower
    (Samples.only_aws [Samples.launch; Samples.guide; Samples.roundup])
    "lambda" (10 / 5 + 1) Samples.aws_feed
  = [ search_result_of Samples.launch None 2;
      search_result_of Samples.guide None 3;
      search_result_of Samples.roundup None 1 ] /\
  value (get_recent_posts
           (Samples.only_aws [Samples.launch; Samples.guide; Samples.roundup])
           None 10)
  = inr (map (fun entry => blog_post_of Samples.aws_feed entry None)
             [Samples.launch; Samples.guide; Samples.roundup]).
Proof.
  split; [vm_compute; reflexivity|].
  split; vm_compute; reflexivity.
Qed.

(* ================================================================= *)
(** * Recent posts: the order of the output *)

Lemma lex_ltb_irrefl (a : list nat) : lex_ltb a a = false.
Proof.
  induction a as [|x a IH]; simpl; trivial.
  now rewrite Nat.ltb_irrefl, Nat.eqb_refl, IH.
Qed.

Lemma datetime_eqb_eq (a b : datetime) : datetime_eqb a b = true -> a = b.
Proof.
  destruct a, b. unfold datetime_eqb. simpl.
  rewrite !andb_true_iff, !Nat.eqb_eq.
  intros [[[[[-> ->] ->] ->] ->] ->]. reflexivity.
Qed.

Lemma same_date_unordered (d a b : datetime) :
  datetime_eqb a d = true -> datetime_eqb b d = true ->
  datetime_ltb a b = false.
Proof.
  intros Ha Hb. apply datetime_eqb_eq in Ha, Hb. subst.
  apply lex_ltb_irrefl.
Qed.

Lemma filter_firstn_prefix {A : Type} (P : A -> bool) (n : nat)
      (l : list A) :
  filter P l = filter P (firstn n l) ++ filter P (skipn n l).
Proof. now rewrite <- filter_app, firstn_skipn. Qed.

(** C7, as amended.  The posts [get_recent_posts] returns are sorted by
    published date descending, an absent date counting as [datetime.min];
    a post without a date comes after every post whose date is later than
    [datetime.min].  Posts of the same date keep the order in which the
    feeds gave them; a post dated [datetime.min] has the date of the posts
    without a date, and keeps its feed order among them. *)
Theorem recent_posts_sorted (net : Net) (category : option string)
        (limit : nat) :
  exists posts,
    value (get_recent_posts net category limit) = inr posts /\
    StronglySorted by_published posts /\
    (forall i j p q d,
        nth_error posts i = Some p ->
        nth_error posts j = Some q ->
        bp_published_date p = None ->
        bp_published_date q = Some d ->
        datetime_ltb datetime_min d = true ->
        j < i) /\
    (forall d,
        exists cut,
          filter (fun p => datetime_eqb (published_key p) d)
                 (recent_merged net category limit)
          = filter (fun p => datetime_eqb (published_key p) d) posts
            ++ cut) /\
    (forall p,
        In p posts ->
        datetime_eqb (published_key p) datetime_min = true <->
        bp_published_date p = None \/
        bp_published_date p = Some datetime_min).
Proof.
  eexists. split; [apply get_recent_posts_value|].
  assert (Hs : StronglySorted by_published
                 (firstn limit
                    (sorted_reverse datetime_ltb published_key
                       (recent_merged net category limit))))
    by apply StronglySorted_firstn, sorted_by_published.
  split; [exact Hs|]. split; [|split].
  - intros i j p q d Hi Hj Hp Hq Hd.
    destruct (Nat.lt_trichotomy i j) as [Hlt|[->|Hlt]]; trivial; exfalso.
    + assert (H := @StronglySorted_nth _ _ _ Hs i j p q Hi Hj Hlt).
      unfold by_published, key_ge, published_key in H.
      rewrite Hp, Hq in H. congruence.
    + rewrite Hi in Hj. injection Hj as ->. congruence.
  - intros d.
    exists (filter (fun p => datetime_eqb (published_key p) d)
                   (skipn limit
                          (sorted_reverse datetime_ltb published_key
                             (recent_merged net category limit)))).
    rewrite <- filter_firstn_prefix. symmetry.
    apply sorted_reverse_stable.
    intros x y. apply same_date_unordered.
  - intros p _. unfold published_key.
    destruct (bp_published_date p) as [d|].
    + split.
      * intros H. apply datetime_eqb_eq in H. subst. now right.
      * intros [H|[= ->]]; [discriminate | reflexivity].
    + split; [now left | reflexivity].
Qed.

(** C7 as stated fails: a post without a date that precedes, in the feed, a
    post published at [datetime.min] also precedes it in the output: the two
    have the same key and the sort is stable. *)
Lemma undated_post_before_earliest_post :
  value (get_recent_posts
           (Samples.only_aws [Samples.undated; Samples.earliest]) None 10)
  = inr [ blog_post_of Samples.aws_feed Samples.undated None;
          blog_post_of Samples.aws_feed Samples.earliest (Some datetime_min) ] /\
  bp_published_date (blog_post_of Samples.aws_feed Samples.undated None)
  = None /\
  bp_published_date
    (blog_post_of Samples.aws_feed Samples.earliest (Some datetime_min))
  = Some datetime_min.
Proof.
  split; [vm_compute; reflexivity|]. split; reflexivity.
Qed.

(* ================================================================= *)
(** * [get_rss_feed]: an unknown category *)

(** C3, as amended.  For a category that is not in the registry,
    [get_rss_feed] retrieves nothing and does not retry: its only effect is
    one error record in the log, which names the category, and it returns
    the empty list. *)
Theorem get_rss_feed_unknown_category (net : Net) (category : string)
        (limit : nat) :
  dict_mem AWS_BLOG_CATEGORIES category = false ->
  trace (get_rss_feed net category limit) =
    [ LogRecord ERROR
        ("Error getting RSS feed for " +++ category +++ ": "
         +++ "Unknown category: " +++ category
         +++ ". Use list_blog_categories to see available options.") ] /\
  value (get_rss_feed net category limit) = inr [] /\
  forall url, ~ In (HttpGet url) (trace (get_rss_feed net category limit)).
Proof.
  intros H. unfold get_rss_feed. rewrite H. cbn.
  repeat split. intros url [Hin|[]]. discriminate.
Qed.

Lemma get_rss_feed_unknown_category_witness :
  dict_mem AWS_BLOG_CATEGORIES "nonexistent-category" = false /\
  value (get_rss_feed (fun _ => inr []) "nonexistent-category" 20) = inr [].
Proof.
  split; [reflexivity|].
  apply (get_rss_feed_unknown_category (fun _ => inr []) "nonexistent-category"
           20 eq_refl).
Defined.

(** C3 as stated fails: the value returned for an unknown category is the
    value returned for a known category whose feed is empty. *)
Lemma unknown_category_returns_empty_list :
  value (get_rss_feed (fun _ => inr []) "nonexistent-category" 20) = inr [] /\
  value (get_rss_feed (fun _ => inr []) "aws" 20) = inr [] /\
  dict_mem AWS_BLOG_CATEGORIES "nonexistent-category" = false /\
  dict_mem AWS_BLOG_CATEGORIES "aws" = true.
Proof. repeat split. Qed.

(* ================================================================= *)
(** * Reading a post: header and pagination *)

Section PaginationFacts.
Variables (full : string) (max_length : nat).
Hypothesis max_length_pos : 0 < max_length.

Lemma slice_take_drop (start_index : nat) :
  slice full start_index (start_index + max_length) =
  take max_length (drop start_index full).
Proof. unfold slice. f_equal. lia. Qed.

(** The two shapes of a chunk inside the text. *)
Lemma paginate_truncated (start_index : nat) :
  start_index + max_length < String.length full ->
  paginate full start_index max_length =
  slice full start_index (start_index + max_length)
    +++ continuation_marker (start_index + max_length).
Proof.
  intros H. unfold paginate.
  destruct (Nat.leb_spec (String.length full) start_index); [lia|].
  destruct (Nat.ltb_spec (start_index + max_length) (String.length full));
    [reflexivity | lia].
Qed.

Lemma paginate_last (start_index : nat) :
  start_index < String.length full ->
  String.length full <= start_index + max_length ->
  paginate full start_index max_length =
  slice full start_index (start_index + max_length).
Proof.
  intros H1 H2. unfold paginate.
  destruct (Nat.leb_spec (String.length full) start_index); [lia|].
  destruct (Nat.ltb_spec (start_index + max_length) (String.length full));
    [lia | reflexivity].
Qed.

(** The offset of a notice reads back from its text. *)
Lemma marker_offset_continuation_marker (end_index : nat) :
  marker_offset (continuation_marker end_index) = Some end_index.
Proof.
  unfold marker_offset. cbv zeta.
  change (continuation_marker end_index)
    with ((nl +++ nl +++ "[Content truncated. Use start_index=")
            +++ of_nat end_index +++ " to continue reading.]").
  generalize (nl +++ nl +++ "[Content truncated. Use start_index=").
  intros opening.
  rewrite startswith_append, drop_append, length_append, Nat.add_sub.
  rewrite drop_append, String.eqb_refl, take_append.
  apply to_nat_of_nat.
Qed.

(** What the reader makes of a chunk. *)
Lemma split_chunk_paginate (start_index : nat) :
  start_index < String.length full ->
  split_chunk max_length (paginate full start_index max_length) =
  ( slice full start_index (start_index + max_length),
    if start_index + max_length <? String.length full
    then Some (start_index + max_length) else None ).
Proof.
  intros Hstart. unfold split_chunk.
  destruct (Nat.ltb_spec (start_index + max_length) (String.length full))
    as [Hlt|Hge].
  - rewrite paginate_truncated by trivial.
    assert (Hlen : String.length
                     (slice full start_index (start_index + max_length))
                   = max_length).
    { rewrite slice_take_drop, length_take, length_drop. lia. }
    rewrite (take_append_at _ _ Hlen), (drop_append_at _ _ Hlen).
    now rewrite marker_offset_continuation_marker.
  - rewrite paginate_last by trivial.
    assert (Hlen : String.length
                     (slice full start_index (start_index + max_length))
                   <= max_length).
    { rewrite slice_take_drop, length_take. lia. }
    now rewrite take_all, drop_all.
Qed.

(** Reading from any offset inside the text collects the rest of it. *)
Lemma read_all_from (fuel start_index : nat) :
  start_index < String.length full ->
  String.length full - start_index <= fuel ->
  exists bodies,
    read_all (fun i => paginate full i max_length) max_length fuel
             start_index = Some bodies /\
    join bodies = drop start_index full.
Proof.
  revert start_index. induction fuel as [|fuel IH]; intros start Hs Hf;
    [lia|].
  cbn [read_all]. rewrite split_chunk_paginate by trivial.
  destruct (Nat.ltb_spec (start + max_length) (String.length full))
    as [Hlt|Hge].
  - destruct (IH (start + max_length)) as (bodies & -> & Hj); [lia..|].
    eexists. split; [reflexivity|]. simpl. rewrite Hj.
    rewrite slice_take_drop, <- drop_drop. apply take_drop.
  - eexists. split; [reflexivity|]. simpl.
    rewrite append_empty_r, slice_take_drop. apply take_all.
    rewrite length_drop. lia.
Qed.
End PaginationFacts.

Section ReadProperties.
Variable extract_blog_metadata : string -> string -> Metadata.
Variable clean_html_content : string -> string.
Variable timestamp_str : Timestamp -> string.

Lemma full_content_of_shape (metadata : Metadata)
      (url markdown_content : string) :
  full_content_of timestamp_str metadata url markdown_content =
  ("# " +++ get (md_title metadata) "AWS Blog Post" +++ nl +++ nl) +++
  optional_lines timestamp_str metadata +++
  ("**URL:** " +++ url +++ nl +++ nl +++ "---" +++ nl +++ nl) +++
  markdown_content.
Proof.
  unfold full_content_of, optional_lines.
  destruct (truthy (md_author metadata)),
    (md_published_date metadata), (truthy (md_category metadata));
    repeat (progress (rewrite ?append_assoc; cbn [String.append]));
    reflexivity.
Qed.

Lemma full_content_of_nonempty (metadata : Metadata)
      (url markdown_content : string) :
  0 < String.length
        (full_content_of timestamp_str metadata url markdown_content).
Proof. rewrite full_content_of_shape. simpl. lia. Qed.

(** The value of the tool on a page that can be retrieved. *)
Lemma read_blog_post_value (web : Web) (url html : string)
      (max_length start_index : nat) :
  startswith url "https://aws.amazon.com/blogs/" = true ->
  web url = inr html ->
  value (read_blog_post extract_blog_metadata clean_html_content
           timestamp_str web url max_length start_index) =
  inr (paginate
         (full_content_of timestamp_str (extract_blog_metadata html url) url
            (clean_html_content html))
         start_index max_length).
Proof.
  intros Hurl Hweb. unfold read_blog_post, fetch_url_content.
  rewrite Hurl, Hweb. reflexivity.
Qed.

(** C5.  For a post that can be retrieved and [max_length > 0]: each call
    returns the chunk of the assembled content at its [start_index]; a
    reader that starts at 0 and follows the offset of each continuation
    notice ends after finitely many calls, and the chunk bodies, notices
    removed, concatenate to the content; a notice is appended exactly when
    the window ends before the end of the content (past the end the tool
    answers with the fixed sentinel); and the notice holds the decimal
    digits of the next [start_index]. *)
Theorem read_blog_post_pagination (web : Web) (url html : string)
        (max_length : nat) :
  startswith url "https://aws.amazon.com/blogs/" = true ->
  web url = inr html ->
  0 < max_length ->
  let full_content :=
    full_content_of timestamp_str (extract_blog_metadata html url) url
      (clean_html_content html) in
  let chunk start_index := paginate full_content start_index max_length in
  (forall start_index,
      value (read_blog_post extract_blog_metadata clean_html_content
               timestamp_str web url max_length start_index)
      = inr (chunk start_index)) /\
  (exists fuel bodies,
      read_all chunk max_length fuel 0 = Some bodies /\
      join bodies = full_content) /\
  (forall start_index,
      start_index < String.length full_content ->
      let end_index := start_index + max_length in
      (end_index < String.length full_content ->
       chunk start_index =
       slice full_content start_index end_index
         +++ continuation_marker end_index) /\
      (String.length full_content <= end_index ->
       chunk start_index = slice full_content start_index end_index)) /\
  (forall end_index,
      continuation_marker end_index =
      nl +++ nl +++ "[Content truncated. Use start_index="
         +++ of_nat end_index +++ " to continue reading.]" /\
      to_nat (of_nat end_index) = Some end_index /\
      marker_offset (continuation_marker end_index) = Some end_index).
Proof.
  intros Hurl Hweb Hmax full_content chunk.
  split; [|split; [|split]].
  - intros start_index. now apply read_blog_post_value.
  - destruct (@read_all_from full_content max_length Hmax
                (String.length full_content) 0) as (bodies & Hr & Hj).
    + apply full_content_of_nonempty.
    + lia.
    + exists (String.length full_content), bodies. split; [exact Hr|].
      exact Hj.
  - intros start_index Hstart end_index. split; intros H.
    + now apply paginate_truncated.
    + now apply paginate_last.
  - intros end_index. split; [reflexivity|]. split.
    + apply to_nat_of_nat.
    + apply marker_offset_continuation_marker.
Qed.

(** C10.  The assembled content begins with the title line, which is the
    literal default when no title was extracted; after the optional lines
    come the URL line and the separator, then the converted body. *)
Theorem full_content_header (metadata : Metadata)
        (url markdown_content : string) :
  let full_content :=
    full_content_of timestamp_str metadata url markdown_content in
  startswith full_content
    ("# " +++ get (md_title metadata) "AWS Blog Post" +++ nl +++ nl) = true /\
  (md_title metadata = None ->
   startswith full_content ("# AWS Blog Post" +++ nl +++ nl) = true) /\
  full_content =
    ("# " +++ get (md_title metadata) "AWS Blog Post" +++ nl +++ nl) +++
    optional_lines timestamp_str metadata +++
    ("**URL:** " +++ url +++ nl +++ nl +++ "---" +++ nl +++ nl) +++
    markdown_content.
Proof.
  cbn zeta. rewrite full_content_of_shape.
  split; [apply startswith_append|].
  split; [|reflexivity].
  intros ->. apply startswith_append.
Qed.

End ReadProperties.

(** Witness of [read_blog_post_pagination]: a short page read in chunks of
    16 characters. *)
Lemma read_blog_post_pagination_witness :
  startswith Samples.post_url "https://aws.amazon.com/blogs/" = true /\
  Samples.one_page Samples.post_url = inr "<h1>Post</h1>Hello, world" /\
  0 < 16 /\
  exists fuel bodies,
    read_all
      (fun start_index =>
         paginate
           (full_content_of Samples.no_clock
              (Samples.no_metadata "<h1>Post</h1>Hello, world" Samples.post_url)
              Samples.post_url (Samples.as_is "<h1>Post</h1>Hello, world"))
           start_index 16)
      16 fuel 0 = Some bodies /\
    join bodies =
    full_content_of Samples.no_clock
      (Samples.no_metadata "<h1>Post</h1>Hello, world" Samples.post_url)
      Samples.post_url (Samples.as_is "<h1>Post</h1>Hello, world").
Proof.
  split; [reflexivity|]. split; [reflexivity|].
  assert (Hmax : 0 < 16) by (repeat constructor).
  split; [exact Hmax|].
  exact (proj1 (proj2
    (@read_blog_post_pagination Samples.no_metadata Samples.as_is
       Samples.no_clock Samples.one_page Samples.post_url
       "<h1>Post</h1>Hello, world" 16 eq_refl eq_refl Hmax))).
Defined.

(** The chunks of that page, as the tool returns them. *)
Example pagination_chunks :
  map (fun start_index =>
         paginate ("# AWS Blog Post" +++ nl +++ nl +++ "Hello") start_index 16)
      [0; 16; 32]
  = [ "# AWS Blog Post" +++ nl +++ nl +++ nl
        +++ "[Content truncated. Use start_index=16 to continue reading.]";
      nl +++ "Hello";
      "No more content available." ].
Proof. vm_compute. reflexivity. Qed.

(* ================================================================= *)
(** * The date normalizer *)

Lemma pattern_raises_value_error (n : nat) :
  forall format in_blank e,
    String.length format <= n ->
    pattern in_blank format = inl e -> exists msg, e = ValueError msg.
Proof.
  induction n as [|n IH]; intros [|c rest] in_blank e Hn; simpl in *;
    try easy; try lia.
  destruct (is_space c).
  - destruct (pattern true rest) eqn:Hp; [|easy].
    intros [= <-]. eapply IH, Hp. lia.
  - destruct (Ascii.eqb c "%").
    + destruct rest as [|d rest']; [intros [= <-]; eauto|].
      destruct (directive d); [|intros [= <-]; eauto].
      destruct (pattern false rest') eqn:Hp; [|easy].
      intros [= <-]. eapply IH, Hp. simpl in Hn. lia.
    + destruct (pattern false rest) eqn:Hp; [|easy].
      intros [= <-]. eapply IH, Hp. lia.
Qed.

Lemma only_value_error_inr {A : Type} (a : A) : only_value_error (inr a).
Proof. discriminate. Qed.

Lemma only_value_error_inl {A : Type} (msg : string) :
  only_value_error (A := A) (inl (ValueError msg)).
Proof. intros e [= <-]. eauto. Qed.

Lemma only_value_error_if {A : Type} (c : bool) (a b : PyError + A) :
  only_value_error a -> only_value_error b ->
  only_value_error (if c then a else b).
Proof. now destruct c. Qed.

Lemma only_value_error_and_then {A B : Type} (r : PyError + A)
      (k : A -> PyError + B) :
  only_value_error r -> (forall a, only_value_error (k a)) ->
  only_value_error (and_then r k).
Proof.
  intros Hr Hk. destruct r as [e|a]; simpl; [|apply Hk].
  intros e' [= <-]. now apply Hr.
Qed.

Lemma int_raises_value_error (s : string) : only_value_error (int s).
Proof.
  unfold int.
  destruct (int_lstrip s) as [|c literal]; [apply only_value_error_inl|].
  assert (H : forall literal : string,
             only_value_error
               (match literal with
                | String c literal' =>
                    if is_digit c then
                      match digits_value literal' (digit_value c) with
                      | Some (v, rest) =>
                          if all_int_space rest
                          then inr (if false then (- v)%Z else v)
                          else inl (ValueError
                                      "invalid literal for int() with base 10")
                      | None =>
                          inl (ValueError
                                 "invalid literal for int() with base 10")
                      end
                    else inl (ValueError
                                "invalid literal for int() with base 10")
                | EmptyString =>
                    inl (ValueError "invalid literal for int() with base 10")
                end)).
  { intros [|d l]; [apply only_value_error_inl|].
    destruct (is_digit d); [|apply only_value_error_inl].
    destruct (digits_value l (digit_value d)) as [[v rest]|];
      [|apply only_value_error_inl].
    destruct (all_int_space rest);
      [apply only_value_error_inr | apply only_value_error_inl]. }
  destruct (Ascii.eqb c "+"); [|destruct (Ascii.eqb c "-")].
  - apply H.
  - destruct literal as [|d l]; [apply only_value_error_inl|].
    destruct (is_digit d); [|apply only_value_error_inl].
    destruct (digits_value l (digit_value d)) as [[v rest]|];
      [|apply only_value_error_inl].
    destruct (all_int_space rest);
      [apply only_value_error_inr | apply only_value_error_inl].
  - apply (H (String c literal)).
Qed.

Create HintDb value_error.
#[local] Hint Resolve only_value_error_inr only_value_error_inl
  only_value_error_if int_raises_value_error : value_error.

Lemma gmtoff_of_raises_value_error (z : string) :
  only_value_error (gmtoff_of z).
Proof.
  unfold gmtoff_of.
  apply only_value_error_if; [auto with value_error|].
  apply only_value_error_and_then.
  { repeat apply only_value_error_if; auto with value_error. }
  intros z2.
  repeat (apply only_value_error_and_then;
          [auto with value_error | intros ?]).
  auto with value_error.
Qed.

Lemma field_raises_value_error (caps : Captures) (name : string)
      (default : Z) :
  only_value_error (field caps name default).
Proof.
  unfold field. destruct (group caps name); auto with value_error.
Qed.

Lemma month_of_raises_value_error (caps : Captures) :
  only_value_error (month_of caps).
Proof.
  unfold month_of, index.
  destruct (group caps "m"); [auto with value_error|].
  destruct (group caps "B") as [B|].
  - destruct (index_of f_month (lower_str B) 0); auto with value_error.
  - destruct (group caps "b") as [b|]; [|auto with value_error].
    destruct (index_of a_month (lower_str b) 0); auto with value_error.
Qed.

Lemma strptime_raises_value_error (data_string format : string)
      (e : PyError) :
  strptime data_string format = inl e -> exists msg, e = ValueError msg.
Proof.
  revert e. change (only_value_error (strptime data_string format)).
  unfold strptime.
  destruct (pattern false format) as [e'|format_regex] eqn:Hp.
  { intros e [= <-].
    eapply pattern_raises_value_error; [reflexivity|exact Hp]. }
  destruct (re_match format_regex data_string) as [[found rest]|];
    [|auto with value_error].
  apply only_value_error_if; [auto with value_error|].
  apply only_value_error_and_then;
    [apply field_raises_value_error | intros year].
  apply only_value_error_and_then;
    [apply month_of_raises_value_error | intros month].
  do 4 (apply only_value_error_and_then;
        [apply field_raises_value_error | intros ?]).
  apply only_value_error_and_then.
  { destruct (group found "z") as [z|]; [|auto with value_error].
    assert (Hz := @gmtoff_of_raises_value_error z).
    destruct (gmtoff_of z) as [e'|off]; [|auto with value_error].
    intros e [= <-]. now apply Hz. }
  intros gmtoff.
  repeat (apply only_value_error_if; [auto with value_error|]).
  auto with value_error.
Qed.

Lemma try_formats_returns (date_str : string) (fmts : list string) :
  exists result, try_formats date_str fmts = inr result.
Proof.
  induction fmts as [|fmt fmts IH]; simpl; [eauto|].
  destruct (strptime (strip date_str) fmt) as [e|t] eqn:Hs; [|eauto].
  apply strptime_raises_value_error in Hs as [msg ->]. exact IH.
Qed.

(** C8.  [parse_date_string] parses the four sample dates, returns [None]
    for the text that is no date and for the empty string, and for every
    input returns a value, a timestamp or [None]: it raises nothing. *)
Theorem parse_date_string_samples :
  parse_date_string "2025-10-28T16:59:17-07:00" =
    inr (Some (mkTimestamp (mkDatetime 2025 10 28 16 59 17)
                           (Some ((-25200)%Z, 0%Z)))) /\
  parse_date_string "October 28, 2025" =
    inr (Some (mkTimestamp (mkDatetime 2025 10 28 0 0 0) None)) /\
  parse_date_string "Oct 28, 2025" =
    inr (Some (mkTimestamp (mkDatetime 2025 10 28 0 0 0) None)) /\
  parse_date_string "2025-10-28" =
    inr (Some (mkTimestamp (mkDatetime 2025 10 28 0 0 0) None)) /\
  parse_date_string "invalid-date" = inr None /\
  parse_date_string EmptyString = inr None /\
  forall date_str,
    parse_date_string date_str = inr None \/
    exists timestamp, parse_date_string date_str = inr (Some timestamp).
Proof.
  repeat (split; [vm_compute; reflexivity|]).
  intros date_str. unfold parse_date_string.
  destruct (String.eqb date_str EmptyString); [now left|].
  destruct (try_formats_returns date_str formats) as [[t|] ->]; eauto.
Qed.

(* ================================================================= *)
(** * What the tools retrieve *)

Lemma requests_app (t1 t2 : list Event) :
  requests (t1 ++ t2) = requests t1 ++ requests t2.
Proof.
  induction t1 as [|[url|level message] t1 IH]; simpl; trivial.
  now rewrite IH.
Qed.

Lemma runs_ret {A : Type} (a : A) : runs (ret a) [] a.
Proof. now split. Qed.

Lemma runs_log (level : Level) (message : string) :
  runs (log level message) [] tt.
Proof. now split. Qed.

Lemma runs_bind {A B : Type} (m : M A) (k : A -> M B) (r1 r2 : list string)
      (a : A) (b : B) :
  runs m r1 a -> runs (k a) r2 b -> runs (bind m k) (r1 ++ r2) b.
Proof.
  destruct m as [t [e|a']]; intros [Hr Hv]; simpl in *; [discriminate|].
  injection Hv as ->. unfold runs, bind. destruct (k a) as [t' r].
  simpl. intros [Hr' Hv']. now rewrite requests_app, Hr, Hr'.
Qed.

Lemma runs_bind_quiet {A B : Type} (m : M A) (k : A -> M B)
      (r : list string) (a : A) (b : B) :
  runs m [] a -> runs (k a) r b -> runs (bind m k) r b.
Proof. intros Hm Hk. apply (runs_bind _ Hm Hk). Qed.

Lemma runs_bind_end {A B : Type} (m : M A) (k : A -> M B)
      (r : list string) (a : A) (b : B) :
  runs m r a -> runs (k a) [] b -> runs (bind m k) r b.
Proof.
  intros Hm Hk. rewrite <- (app_nil_r r). apply (runs_bind _ Hm Hk).
Qed.

Lemma runs_try {A : Type} (m : M A) (h : Exn -> M A) (r : list string)
      (a : A) :
  runs m r a -> runs (try_except m h) r a.
Proof.
  destruct m as [t [e|a']]; intros [Hr Hv]; simpl in *; [discriminate|].
  now split.
Qed.

(** A loop whose body never raises retrieves what its steps retrieve. *)
Lemma runs_for_each {A B : Type} (f : A -> list B) (u : A -> list string)
      (body : list B -> A -> M (list B)) (xs : list A) :
  (forall s x, runs (body s x) (u x) (s ++ f x)) ->
  forall s, runs (for_each xs body s) (flat_map u xs) (s ++ flat_map f xs).
Proof.
  intros Hbody. induction xs as [|x xs IH]; intros s; simpl.
  - rewrite app_nil_r. apply runs_ret.
  - rewrite app_assoc. eapply runs_bind; [apply Hbody | apply IH].
Qed.

Section RequestFacts.
Variable lower : string -> string.

Lemma _search_rss_feed_runs (net : Net) (rss_url query : string)
      (limit : nat) :
  runs (_search_rss_feed lower net rss_url query limit) [rss_url]
       (feed_contribution lower net query limit rss_url).
Proof.
  split; [|apply _search_rss_feed_value].
  unfold _search_rss_feed, fetch_feed.
  destruct (net rss_url) as [e|entries]; [reflexivity|]. cbn.
  now destruct (search_entries lower (lower query)
                               (firstn (limit * 2) entries)).
Qed.

Lemma _get_posts_from_rss_runs (net : Net) (rss_url : string) (limit : nat) :
  runs (_get_posts_from_rss net rss_url limit) [rss_url]
       (posts_contribution net limit rss_url).
Proof.
  split; [|apply _get_posts_from_rss_value].
  unfold _get_posts_from_rss, fetch_feed.
  destruct (net rss_url) as [e|entries]; [reflexivity|]. cbn.
  now destruct (posts_of_entries rss_url (firstn limit entries)).
Qed.

Lemma search_blog_posts_runs (net : Net) (query : string)
      (category : option string) (limit : nat) :
  runs (search_blog_posts lower net query category limit)
       (feeds_of category)
       (firstn limit
          (sorted_reverse Nat.ltb relevance_key
             (search_merged lower net query category limit))).
Proof.
  unfold search_blog_posts, search_merged, feeds_of.
  apply runs_try.
  eapply runs_bind_quiet; [apply runs_log|].
  destruct (known_category category) as [c|] eqn:Hc.
  - apply known_category_lookup in Hc as (_ & info & Hinfo).
    unfold registry. rewrite Hinfo.
    eapply runs_bind_end; [|apply runs_ret].
    eapply runs_bind_quiet; [apply runs_ret|].
    eapply runs_bind_end; [apply _search_rss_feed_runs | apply runs_ret].
  - eapply runs_bind_end; [|apply runs_ret].
    apply (runs_for_each
             (fun cat =>
                match dict_lookup AWS_BLOG_CATEGORIES cat with
                | Some info =>
                    feed_contribution lower net query (limit / 11 + 1)
                                      (cat_rss info)
                | None => []
                end)
             (fun cat =>
                match dict_lookup AWS_BLOG_CATEGORIES cat with
                | Some info => [cat_rss info]
                | None => []
                end)).
    intros s cat. unfold registry.
    destruct (dict_lookup AWS_BLOG_CATEGORIES cat) as [info|].
    + apply runs_try.
      eapply runs_bind_quiet; [apply runs_ret|].
      eapply runs_bind_end; [apply _search_rss_feed_runs | apply runs_ret].
    + rewrite app_nil_r. now split.
Qed.

Lemma get_recent_posts_runs (net : Net) (category : option string)
      (limit : nat) :
  runs (get_recent_posts net category limit)
       (feeds_of category)
       (firstn limit
          (sorted_reverse datetime_ltb published_key
             (recent_merged net category limit))).
Proof.
  unfold get_recent_posts, recent_merged, feeds_of.
  apply runs_try.
  eapply runs_bind_quiet; [apply runs_log|].
  destruct (known_category category) as [c|] eqn:Hc.
  - apply known_category_lookup in Hc as (_ & info & Hinfo).
    unfold registry. rewrite Hinfo.
    eapply runs_bind_end; [|apply runs_ret].
    eapply runs_bind_quiet; [apply runs_ret|].
    eapply runs_bind_end; [apply _get_posts_from_rss_runs | apply runs_ret].
  - eapply runs_bind_end; [|apply runs_ret].
    apply (runs_for_each
             (fun item : string * CategoryInfo =>
                posts_contribution net (limit / 5 + 1) (cat_rss (snd item)))
             (fun item : string * CategoryInfo => [cat_rss (snd item)])).
    intros s [cat_slug cat_info]. apply runs_try.
    eapply runs_bind_end; [apply _get_posts_from_rss_runs | apply runs_ret].
Qed.

Lemma get_rss_feed_runs (net : Net) (category : string)
      (info : CategoryInfo) (limit : nat) :
  dict_lookup AWS_BLOG_CATEGORIES category = Some info ->
  runs (get_rss_feed net category limit) [cat_rss info]
       (posts_contribution net limit (cat_rss info)).
Proof.
  intros Hinfo. unfold get_rss_feed, dict_mem, registry. rewrite Hinfo.
  apply runs_try.
  eapply runs_bind_quiet; [apply runs_ret|].
  eapply runs_bind_quiet; [apply runs_log|].
  eapply runs_bind_quiet; [apply runs_ret|].
  eapply runs_bind_end; [apply _get_posts_from_rss_runs | apply runs_ret].
Qed.

End RequestFacts.

(* ================================================================= *)
(** * Search and listing: bounds, feeds read, category filters *)

Lemma length_flat_map_le {A B : Type} (f : A -> list B) (k : nat)
      (l : list A) :
  (forall x, List.length (f x) <= k) ->
  List.length (flat_map f l) <= List.length l * k.
Proof.
  intros Hf. induction l as [|x l IH]; simpl; trivial.
  rewrite length_app. specialize (Hf x). lia.
Qed.

(** A list whose keys are mutually unordered is left as it is. *)
Lemma sorted_reverse_unordered {A K : Type} (ltb : K -> K -> bool)
      (key : A -> K) (l : list A) :
  (forall x y, In x l -> In y l -> ltb (key x) (key y) = false) ->
  sorted_reverse ltb key l = l.
Proof.
  induction l as [|x l IH]; intros H; simpl; trivial.
  rewrite IH by (intros; apply H; now right).
  destruct l as [|y l]; simpl; trivial.
  now rewrite (H x y) by (simpl; auto).
Qed.

(** The registry tells the display name of each of its feeds. *)
Lemma registry_category_of_rss (c : string) (info : CategoryInfo) :
  dict_lookup AWS_BLOG_CATEGORIES c = Some info ->
  category_of_rss AWS_BLOG_CATEGORIES (cat_rss info) = Some (cat_name info).
Proof.
  unfold AWS_BLOG_CATEGORIES. cbn [dict_lookup].
  repeat (destruct (String.eqb _ c); [intros [= <-]; reflexivity|]).
  discriminate.
Qed.

Lemma unknown_category_not_known (c : string) :
  dict_mem AWS_BLOG_CATEGORIES c = false -> known_category (Some c) = None.
Proof.
  intros H. unfold known_category. rewrite H. now rewrite andb_false_r.
Qed.

Section ToolProperties.
Variable lower : string -> string.

(** X1.  Whatever the query and the category filter, [search_blog_posts]
    returns at most [limit] results, in descending order of relevance.
    Without a known category it returns at most [5 * (limit // 11 + 1)]
    results, which is fewer than [limit] for most limits. *)
Theorem search_results_sorted_and_bounded (net : Net) (query : string)
        (category : option string) (limit : nat) :
  exists results,
    value (search_blog_posts lower net query category limit) = inr results /\
    List.length results <= limit /\
    StronglySorted by_relevance results /\
    (known_category category = None ->
     List.length results <= 5 * (limit / 11 + 1)).
Proof.
  eexists. split; [apply search_blog_posts_value|].
  split; [apply firstn_le_length|].
  split; [apply StronglySorted_firstn, sorted_by_relevance|].
  intros Hc. rewrite length_firstn, sorted_reverse_length.
  unfold search_merged. rewrite Hc.
  etransitivity; [apply Nat.le_min_r|].
  apply (@length_flat_map_le _ _ _ (limit / 11 + 1) selected_feeds).
  intros rss_url. apply feed_contribution_length.
Qed.

(** X2.  [search_blog_posts] and [get_recent_posts] retrieve exactly the
    feeds of their category filter, each once and in order: the feed of a
    known category, otherwise the feeds of the first five categories of
    the registry, whether or not a retrieval fails.  The feeds of the
    other six categories are never retrieved without a filter. *)
Theorem tools_retrieve_the_selected_feeds (net : Net) (query : string)
        (category : option string) (limit : nat) :
  requests (trace (search_blog_posts lower net query category limit))
  = feeds_of category /\
  requests (trace (get_recent_posts net category limit)) = feeds_of category /\
  feeds_of None =
    [ "https://aws.amazon.com/blogs/aws/feed/";
      "https://aws.amazon.com/blogs/architecture/feed/";
      "https://aws.amazon.com/blogs/compute/feed/";
      "https://aws.amazon.com/blogs/containers/feed/";
      "https://aws.amazon.com/blogs/database/feed/" ] /\
  (forall c info,
      category = Some c ->
      dict_lookup AWS_BLOG_CATEGORIES c = Some info ->
      feeds_of category = [cat_rss info]) /\
  (forall c,
      category = Some c ->
      dict_mem AWS_BLOG_CATEGORIES c = false ->
      feeds_of category = feeds_of None).
Proof.
  split; [apply search_blog_posts_runs|].
  split; [apply get_recent_posts_runs|].
  split; [reflexivity|]. split.
  - intros c info -> Hinfo. unfold feeds_of.
    now rewrite (registry_known _ Hinfo), Hinfo.
  - intros c -> Hc. unfold feeds_of.
    now rewrite (unknown_category_not_known _ Hc).
Qed.

(** X3.  A category that is not in the registry is no filter at all:
    [search_blog_posts] and [get_recent_posts] return what they return
    without a category. *)
Theorem unknown_category_is_no_filter (net : Net) (query c : string)
        (limit : nat) :
  dict_mem AWS_BLOG_CATEGORIES c = false ->
  value (search_blog_posts lower net query (Some c) limit)
  = value (search_blog_posts lower net query None limit) /\
  value (get_recent_posts net (Some c) limit)
  = value (get_recent_posts net None limit).
Proof.
  intros Hc. rewrite !search_blog_posts_value, !get_recent_posts_value.
  unfold search_merged, recent_merged.
  now rewrite (unknown_category_not_known _ Hc).
Qed.

(** X4.  The empty query occurs in every text: each entry scores 3.  A
    search with it in a known category whose feed is retrieved returns the
    first [n] entries of the feed, in feed order, when the constructor
    [datetime] accepts the time tuple of each of the first [n * 2]
    entries, and the empty list when it refuses one of them. *)
Theorem empty_query_matches_every_entry (net : Net) (c : string)
        (info : CategoryInfo) (entries : list FeedEntry) (n : nat) :
  lower EmptyString = EmptyString ->
  dict_lookup AWS_BLOG_CATEGORIES c = Some info ->
  net (cat_rss info) = inr entries ->
  (forall entry, entry_score lower (lower EmptyString) entry = 3) /\
  (forallb valid_date (firstn (n * 2) entries) = true ->
   value (search_blog_posts lower net EmptyString (Some c) n)
   = inr (map (fun entry => search_result_of entry (date_of entry) 3)
              (firstn n entries))) /\
  (forallb valid_date (firstn (n * 2) entries) = false ->
   value (search_blog_posts lower net EmptyString (Some c) n) = inr []).
Proof.
  intros Hlower Hc Hnet.
  assert (Hscore : forall entry,
             entry_score lower (lower EmptyString) entry = 3).
  { intros entry. rewrite entry_score_cases, Hlower.
    now destruct (lower (get (fe_title entry) EmptyString)),
      (lower (get (fe_summary entry) EmptyString)). }
  assert (Hall : forall l, scoring lower EmptyString l = l).
  { unfold scoring. induction l as [|e l IH]; [reflexivity|].
    cbn [filter]. rewrite Hscore. change (0 <? 3) with true. now rewrite IH. }
  assert (Hvalue :
            value (search_blog_posts lower net EmptyString (Some c) n)
            = inr (firstn n
                     (sorted_reverse Nat.ltb relevance_key
                        (feed_contribution lower net EmptyString n
                                           (cat_rss info))))).
  { rewrite search_blog_posts_value. unfold search_merged.
    now rewrite (registry_known _ Hc), Hc. }
  split; [exact Hscore|]. rewrite Hvalue. split.
  - intros Hvalid. rewrite <- (Hall (firstn (n * 2) entries)) in Hvalid.
    rewrite (@feed_contribution_valid lower net EmptyString n _ entries
               Hnet Hvalid).
    unfold kept_matches. rewrite Hall.
    rewrite (map_ext _ (fun entry => search_result_of entry (date_of entry) 3))
      by (intros e; now rewrite Hscore).
    rewrite <- firstn_map, <- firstn_map, firstn_firstn.
    replace (Nat.min n (n * 2)) with n by lia.
    rewrite sorted_reverse_unordered.
    + apply f_equal, firstn_all2. apply firstn_le_length.
    + intros x y Hx Hy. apply In_firstn, in_map_iff in Hx as (ex & <- & _).
      apply In_firstn, in_map_iff in Hy as (ey & <- & _). reflexivity.
  - intros Hinvalid. rewrite <- (Hall (firstn (n * 2) entries)) in Hinvalid.
    rewrite (@feed_contribution_invalid lower net EmptyString n _ entries
               Hnet Hinvalid).
    now destruct n.
Qed.

End ToolProperties.

(** X5.  For a known category, [get_recent_posts] returns the posts
    [get_rss_feed] returns for it, sorted by published date (descending,
    undated posts counting as the earliest date, ties in feed order). *)
Theorem recent_posts_of_category_sort_the_feed (net : Net) (c : string)
        (info : CategoryInfo) (limit : nat) :
  dict_lookup AWS_BLOG_CATEGORIES c = Some info ->
  exists posts,
    value (get_rss_feed net c limit) = inr posts /\
    value (get_recent_posts net (Some c) limit)
    = inr (sorted_reverse datetime_ltb published_key posts).
Proof.
  intros Hc. exists (posts_contribution net limit (cat_rss info)).
  split; [apply (@get_rss_feed_runs net c info limit Hc)|].
  rewrite get_recent_posts_value. unfold recent_merged.
  rewrite (registry_known _ Hc), Hc.
  apply f_equal, firstn_all2. rewrite sorted_reverse_length.
  apply posts_contribution_length.
Qed.

(** X6.  For a known category [get_rss_feed] retrieves the category's feed
    once.  When the retrieval fails, or when the constructor [datetime]
    refuses the time tuple of one of the first [limit] entries, it returns
    the empty list; otherwise it returns one post for each of the first
    [limit] entries, in feed order, with the date built from the entry's
    time tuple, every post labelled with the display name of the
    category. *)
Theorem get_rss_feed_known_category (net : Net) (c : string)
        (info : CategoryInfo) (limit : nat) :
  dict_lookup AWS_BLOG_CATEGORIES c = Some info ->
  requests (trace (get_rss_feed net c limit)) = [cat_rss info] /\
  (forall e, net (cat_rss info) = inl e ->
             value (get_rss_feed net c limit) = inr []) /\
  (forall entries,
      net (cat_rss info) = inr entries ->
      forallb valid_date (firstn limit entries) = false ->
      value (get_rss_feed net c limit) = inr []) /\
  (forall entries,
      net (cat_rss info) = inr entries ->
      forallb valid_date (firstn limit entries) = true ->
      exists posts,
        value (get_rss_feed net c limit) = inr posts /\
        List.length posts = Nat.min limit (List.length entries) /\
        map bp_title posts
        = map (fun e => get (fe_title e) EmptyString) (firstn limit entries) /\
        map bp_url posts
        = map (fun e => get (fe_link e) EmptyString) (firstn limit entries) /\
        map (fun p => inr (bp_published_date p)) posts
        = map entry_published_date (firstn limit entries) /\
        forall p, In p posts -> bp_category p = Some (cat_name info)).
Proof.
  intros Hc. destruct (@get_rss_feed_runs net c info limit Hc) as [Hr Hv].
  split; [exact Hr|]. rewrite Hv. split; [|split].
  - intros e He. rewrite posts_contribution_eq. now rewrite He.
  - intros entries He Hinvalid.
    now rewrite (posts_contribution_invalid _ _ _ He Hinvalid).
  - intros entries He Hvalid.
    rewrite (posts_contribution_valid _ _ _ He Hvalid).
    eexists. split; [reflexivity|]. unfold listed_posts.
    rewrite length_map, length_firstn, !map_map. repeat split.
    + apply map_ext_in. intros e Hin. simpl.
      rewrite forallb_forall in Hvalid. specialize (Hvalid e Hin).
      unfold valid_date, date_of in *.
      now destruct (entry_published_date e).
    + intros p Hp. apply in_map_iff in Hp as (e & <- & _). simpl.
      apply (registry_category_of_rss _ Hc).
Qed.

(** X7.  [list_blog_categories] lists the registry in declaration order,
    every key once; every category it lists is known to the registry under
    its slug with the listed name and URLs, and [get_rss_feed] called with
    the slug retrieves the listed feed. *)
Theorem listed_categories_are_known :
  exists categories,
    value list_blog_categories = inr categories /\
    map bc_slug categories = dict_keys AWS_BLOG_CATEGORIES /\
    NoDup (map bc_slug categories) /\
    forall category,
      In category categories ->
      exists info,
        dict_lookup AWS_BLOG_CATEGORIES (bc_slug category) = Some info /\
        bc_name category = cat_name info /\
        bc_url category = cat_url info /\
        bc_rss_url category = Some (cat_rss info) /\
        forall net limit,
          requests (trace (get_rss_feed net (bc_slug category) limit))
          = [cat_rss info].
Proof.
  eexists. split; [vm_compute; reflexivity|].
  split; [reflexivity|]. split.
  - repeat (constructor; [simpl; intuition discriminate|]). constructor.
  - intros category Hin. simpl in Hin.
    repeat (destruct Hin as [<-|Hin];
            [eexists; split; [reflexivity|]; repeat split;
             intros net limit;
             refine (proj1 (@get_rss_feed_runs net _ _ limit _));
             reflexivity|]).
    destruct Hin.
Qed.

(* ================================================================= *)
(** * Reading a post: outcomes and sizes *)

Section ReadOutcomes.
Variable extract_blog_metadata : string -> string -> Metadata.
Variable clean_html_content : string -> string.
Variable timestamp_str : Timestamp -> string.

(** X8.  [read_blog_post] never raises: it always returns a text.  For a
    URL outside [https://aws.amazon.com/blogs/] the text is the error
    message about the domain and nothing is retrieved; otherwise the URL is
    retrieved once, and the text is the error message of the failed
    retrieval or the requested chunk of the assembled content. *)
Theorem read_blog_post_outcomes (web : Web) (url : string)
        (max_length start_index : nat) :
  let call :=
    read_blog_post extract_blog_metadata clean_html_content timestamp_str
                   web url max_length start_index in
  exists text,
    value call = inr text /\
    (startswith url "https://aws.amazon.com/blogs/" = false ->
     requests (trace call) = [] /\
     text = "Error reading blog post: URL must be from aws.amazon.com/blogs domain") /\
    (startswith url "https://aws.amazon.com/blogs/" = true ->
     requests (trace call) = [url] /\
     (forall e, web url = inl e -> text = "Error reading blog post: " +++ e) /\
     (forall html,
         web url = inr html ->
         text =
         paginate
           (full_content_of timestamp_str (extract_blog_metadata html url) url
              (clean_html_content html))
           start_index max_length)).
Proof.
  cbv zeta. unfold read_blog_post, fetch_url_content.
  destruct (startswith url "https://aws.amazon.com/blogs/").
  - destruct (web url) as [e|html]; cbn; eexists; repeat split;
      intros; congruence.
  - cbn. eexists. repeat split; intros; congruence.
Qed.

End ReadOutcomes.

(** X9.  [max_length] bounds the content of a chunk, not the text
    returned: a truncated chunk is [max_length] characters followed by the
    notice, so it is longer than [max_length]; the last chunk is the rest
    of the content and is at most [max_length] characters long. *)
Theorem chunk_length (full_content : string) (start_index max_length : nat) :
  (start_index + max_length < String.length full_content ->
   String.length (paginate full_content start_index max_length)
   = max_length
     + String.length (continuation_marker (start_index + max_length)) /\
   max_length
   < String.length (paginate full_content start_index max_length)) /\
  (start_index < String.length full_content <= start_index + max_length ->
   String.length (paginate full_content start_index max_length)
   = String.length full_content - start_index /\
   String.length (paginate full_content start_index max_length)
   <= max_length).
Proof.
  assert (Hslice : String.length
                     (slice full_content start_index
                            (start_index + max_length))
                   = Nat.min max_length
                             (String.length full_content - start_index)).
  { unfold slice. rewrite length_take, length_drop. f_equal. lia. }
  unfold paginate. split.
  - intros H.
    destruct (Nat.leb_spec (String.length full_content) start_index); [lia|].
    destruct (Nat.ltb_spec (start_index + max_length)
                           (String.length full_content)); [|lia].
    rewrite length_append, Hslice.
    assert (0 < String.length
                  (continuation_marker (start_index + max_length)))
      by (unfold continuation_marker, nl; simpl; lia).
    lia.
  - intros [H1 H2].
    destruct (Nat.leb_spec (String.length full_content) start_index); [lia|].
    destruct (Nat.ltb_spec (start_index + max_length)
                           (String.length full_content)); [lia|].
    rewrite Hslice. lia.
Qed.

(* ================================================================= *)
(** * Metadata of a page *)

Lemma startswith_empty (s : string) : startswith s EmptyString = true.
Proof. now destruct s. Qed.

Lemma startswith_drop (p s : string) :
  startswith s p = true -> s = p +++ drop (String.length p) s.
Proof.
  revert s. induction p as [|b p IH]; intros [|a s]; simpl; trivial;
    try discriminate.
  intros H. apply andb_true_iff in H as [Hab Hs].
  apply Ascii.eqb_eq in Hab as ->. f_equal. now apply IH.
Qed.

Lemma str_in_append (sub a b : string) : str_in sub (a +++ sub +++ b) = true.
Proof.
  induction a as [|c a IH]; simpl.
  - destruct sub; simpl; [now destruct b|].
    now rewrite Ascii.eqb_refl, startswith_append.
  - rewrite IH. apply orb_true_r.
Qed.

(** The first part of a text split at slashes is the text before the
    first slash; splitting at [/blogs/] first does not change it. *)
Lemma split_slash_head (s : string) :
  hd EmptyString (Html.split s "/") = Html.until_slash s.
Proof.
  unfold Html.split.
  assert (H : fst (Html.split_go "/" 0 s) = Html.until_slash s).
  { induction s as [|c s IH]; simpl; trivial.
    rewrite startswith_empty, andb_true_r.
    destruct (Ascii.eqb c "/"); simpl; trivial.
    destruct (Html.split_go "/" 0 s). simpl in *. now rewrite IH. }
  destruct (Html.split_go "/" 0 s). exact H.
Qed.

Lemma split_blogs_until_slash (s : string) :
  Html.until_slash (fst (Html.split_go "/blogs/" 0 s)) = Html.until_slash s.
Proof.
  induction s as [|c s IH]; trivial.
  cbn [Html.split_go].
  destruct (startswith (String c s) "/blogs/") eqn:Hs.
  - simpl in Hs. apply andb_true_iff in Hs as [Hc _].
    apply Ascii.eqb_eq in Hc as ->. reflexivity.
  - destruct (Html.split_go "/blogs/" 0 s). simpl in *.
    now rewrite IH.
Qed.

Lemma url_category_after_prefix (rest : string) :
  Html.url_category ("https://aws.amazon.com/blogs/" +++ rest) =
  option_map cat_name
             (dict_lookup AWS_BLOG_CATEGORIES (Html.until_slash rest)).
Proof.
  unfold Html.url_category.
  change ("https://aws.amazon.com/blogs/" +++ rest)
    with ("https://aws.amazon.com" +++ "/blogs/" +++ rest) at 1.
  rewrite str_in_append.
  assert (Hsplit : Html.split ("https://aws.amazon.com/blogs/" +++ rest)
                              "/blogs/"
                   = "https://aws.amazon.com" :: Html.split rest "/blogs/").
  { unfold Html.split. cbn -[Html.split_go].
    cbn [Html.split_go startswith Ascii.eqb Bool.eqb andb String.length
         Nat.sub].
    rewrite startswith_empty.
    destruct (Html.split_go "/blogs/" 0 rest). reflexivity. }
  rewrite Hsplit.
  assert (Hnth : nth 1 ("https://aws.amazon.com" :: Html.split rest "/blogs/")
                     EmptyString
                 = fst (Html.split_go "/blogs/" 0 rest)).
  { unfold Html.split. now destruct (Html.split_go "/blogs/" 0 rest). }
  assert (Hlen : (1 <? List.length
                         ("https://aws.amazon.com"
                            :: Html.split rest "/blogs/")) = true).
  { unfold Html.split. now destruct (Html.split_go "/blogs/" 0 rest). }
  rewrite Hlen, Hnth, split_slash_head, split_blogs_until_slash.
  now destruct (dict_lookup AWS_BLOG_CATEGORIES (Html.until_slash rest)).
Qed.

(** X10.  For every URL [read_blog_post] accepts, the category that
    [extract_blog_metadata] derives from the URL is decided by the path
    segment that follows [/blogs/]: the display name of that registry key,
    or no category when the segment is no registry key. *)
Theorem url_category_of_accepted_url (soup : Html.Soup) (url : string) :
  startswith url "https://aws.amazon.com/blogs/" = true ->
  md_category (Html.pm_fields (Html.extract_blog_metadata soup url)) =
  option_map cat_name
             (dict_lookup AWS_BLOG_CATEGORIES
                          (Html.until_slash (drop 29 url))).
Proof.
  intros H. apply startswith_drop in H. simpl String.length in H.
  simpl. rewrite H at 1. apply url_category_after_prefix.
Qed.

(** X11.  The registry and the URL parsing agree: for every category of
    the registry, any URL under its listing URL is given the display name
    of that category. *)
Theorem url_category_of_registry_url (soup : Html.Soup) (c : string)
        (info : CategoryInfo) (path : string) :
  dict_lookup AWS_BLOG_CATEGORIES c = Some info ->
  md_category
    (Html.pm_fields (Html.extract_blog_metadata soup (cat_url info +++ path)))
  = Some (cat_name info).
Proof.
  unfold AWS_BLOG_CATEGORIES at 1. cbn [dict_lookup].
  repeat (destruct (String.eqb _ c);
          [intros [= <-]; cbn [Html.extract_blog_metadata Html.pm_fields
                                 md_category cat_url cat_name];
           match goal with
           | |- Html.url_category ?u = _ =>
               rewrite (startswith_drop "https://aws.amazon.com/blogs/" u)
                 by reflexivity
           end;
           rewrite url_category_after_prefix; reflexivity|]).
  discriminate.
Qed.

Lemma parse_date_string_returns (date_str : string) :
  exists result, parse_date_string date_str = inr result.
Proof.
  unfold parse_date_string.
  destruct (String.eqb date_str EmptyString); [eauto|].
  apply try_formats_returns.
Qed.

Lemma published_date_of_first_match (soup : Html.Soup)
      (before after : list string) (selector : string)
      (date_elem : Html.Element) :
  (forall s, In s before -> Html.soup_select_one soup s = None) ->
  Html.soup_select_one soup selector = Some date_elem ->
  exists result,
    parse_date_string
      (if truthy (Html.el_datetime date_elem)
       then get (Html.el_datetime date_elem) EmptyString
       else strip (Html.el_text date_elem)) = inr result /\
    Html.published_date_of soup (before ++ selector :: after) = result.
Proof.
  intros Hbefore Hsel. induction before as [|s before IH]; simpl.
  - rewrite Hsel.
    destruct (parse_date_string_returns
                (if truthy (Html.el_datetime date_elem)
                 then get (Html.el_datetime date_elem) EmptyString
                 else strip (Html.el_text date_elem))) as [result Hr].
    exists result. now rewrite Hr.
  - rewrite (Hbefore s) by now left.
    apply IH. intros s' Hs'. apply Hbefore. now right.
Qed.

(** X12.  The published date of the metadata is decided by the first date
    selector that finds an element: it is what [parse_date_string] makes of
    that element's [datetime] attribute (of its stripped text when the
    attribute is missing or empty), also when that is no date.  Selectors
    after it are not consulted. *)
Theorem published_date_of_first_element (soup : Html.Soup) (url : string)
        (before after : list string) (selector : string)
        (date_elem : Html.Element) :
  Html.date_selectors = before ++ selector :: after ->
  (forall s, In s before -> Html.soup_select_one soup s = None) ->
  Html.soup_select_one soup selector = Some date_elem ->
  exists result,
    parse_date_string
      (if truthy (Html.el_datetime date_elem)
       then get (Html.el_datetime date_elem) EmptyString
       else strip (Html.el_text date_elem)) = inr result /\
    md_published_date (Html.pm_fields (Html.extract_blog_metadata soup url))
    = result.
Proof.
  intros Hsel Hbefore Hfound.
  unfold Html.extract_blog_metadata. cbn [Html.pm_fields md_published_date].
  rewrite Hsel. now apply published_date_of_first_match.
Qed.

(* ================================================================= *)
(** * Content of a page: the white space left after cleaning *)

Section CleanFacts.
Variable is_space : ascii -> bool.

Lemma strip_line_starts_clean (s : string) :
  forall bol,
    Html.line_starts_clean is_space bol
      (Html.strip_line_starts is_space bol s) = true.
Proof.
  induction s as [|c s IH]; intros bol; simpl; trivial.
  destruct (bol && is_space c) eqn:E.
  - apply andb_true_iff in E as [-> _]. apply IH.
  - simpl. now rewrite E, IH.
Qed.

Lemma lstrip_ws_clean (s : string) :
  Html.line_starts_clean is_space true s = true ->
  Html.lstrip_ws is_space s = s.
Proof.
  destruct s as [|c s]; simpl; trivial.
  now destruct (is_space c).
Qed.

Lemma rstrip_ws_clean (s : string) :
  forall bol,
    Html.line_starts_clean is_space bol s = true ->
    Html.line_starts_clean is_space bol (Html.rstrip_ws is_space s) = true.
Proof.
  induction s as [|c s IH]; intros bol; simpl; trivial.
  intros H. apply andb_true_iff in H as [Hc Hs].
  specialize (IH _ Hs).
  destruct (Html.rstrip_ws is_space s) as [|d r].
  - destruct (is_space c) eqn:E; simpl; trivial.
    rewrite E. now destruct bol.
  - cbn [Html.line_starts_clean] in *. now rewrite Hc, IH.
Qed.

(** The stripped text does not end in white space. *)
Lemma rstrip_ws_last (s : string) :
  forall pre c,
    Html.rstrip_ws is_space s = pre +++ String c EmptyString ->
    is_space c = false.
Proof.
  induction s as [|a s IH]; intros pre c; simpl.
  - now destruct pre.
  - destruct (Html.rstrip_ws is_space s) as [|d r] eqn:E.
    + destruct (is_space a) eqn:Ha; [now destruct pre|].
      destruct pre as [|b pre]; simpl; intros H.
      * now injection H as <-.
      * injection H as _ H. now destruct pre.
    + destruct pre as [|b pre]; simpl; intros H; [discriminate H|].
      injection H as _ H. apply (IH pre c H).
Qed.

(** What [line_starts_clean] says about the characters of the text. *)
Lemma line_starts_clean_first (c : ascii) (rest : string) :
  Html.line_starts_clean is_space true (String c rest) = true ->
  is_space c = false.
Proof. simpl. now destruct (is_space c). Qed.

Lemma line_starts_clean_after_newline (pre : string) :
  forall bol c post,
    Html.line_starts_clean is_space bol
      (pre +++ nl +++ String c post) = true ->
    is_space c = false.
Proof.
  induction pre as [|a pre IH]; intros bol c post; simpl.
  - rewrite andb_true_iff. intros [_ H]. now destruct (is_space c).
  - rewrite andb_true_iff. intros [_ H]. eapply IH, H.
Qed.

End CleanFacts.

(** X13.  [clean_html_content] never raises.  When the parser or the
    converter raises, it returns its input unchanged.  Otherwise the text
    it returns neither starts nor ends with white space, and no newline in
    it is followed by white space; a newline being white space, the text
    has no blank line: the paragraph breaks of the converted page are
    gone. *)
Theorem clean_html_content_lines (is_space : ascii -> bool)
        (BeautifulSoup : string -> Exn + Html.Soup)
        (decompose : list string -> Html.Soup -> Html.Soup)
        (md : string -> Exn + string) (html_content : string) :
  is_space "010"%char = true ->
  exists text,
    value (Html.clean_html_content is_space BeautifulSoup decompose md
             html_content) = inr text /\
    match BeautifulSoup html_content with
    | inl _ => text = html_content
    | inr parsed =>
        let soup :=
          decompose ["script"; "style"; "nav"; "header"; "footer"] parsed in
        let main_content :=
          match Html.first_selected soup Html.content_selectors with
          | Some elem => Html.el_html elem
          | None => Html.soup_html soup
          end in
        match md main_content with
        | inl _ => text = html_content
        | inr _ =>
            (forall c rest, text = String c rest -> is_space c = false) /\
            (forall pre c,
                text = pre +++ String c EmptyString -> is_space c = false) /\
            (forall pre c post,
                text = pre +++ nl +++ String c post -> is_space c = false) /\
            (forall pre post, text <> pre +++ nl +++ nl +++ post)
        end
    end.
Proof.
  intros Hnl. unfold Html.clean_html_content, lift.
  destruct (BeautifulSoup html_content) as [e|parsed]; cbn.
  { eexists. split; reflexivity. }
  destruct (md _) as [e|markdown]; cbn.
  { eexists. split; reflexivity. }
  eexists. split; [reflexivity|].
  set (stripped :=
         Html.strip_line_starts is_space true
           (Html.collapse_blank_lines is_space 0 markdown)).
  assert (Hclean : Html.line_starts_clean is_space true stripped = true)
    by apply strip_line_starts_clean.
  unfold Html.strip_ws. rewrite (lstrip_ws_clean _ _ Hclean).
  assert (Hout : Html.line_starts_clean is_space true
                   (Html.rstrip_ws is_space stripped) = true)
    by now apply rstrip_ws_clean.
  assert (Hafter : forall pre c post,
             Html.rstrip_ws is_space stripped = pre +++ nl +++ String c post ->
             is_space c = false).
  { intros pre c post H. rewrite H in Hout.
    eapply line_starts_clean_after_newline, Hout. }
  repeat split.
  - intros c rest H. rewrite H in Hout.
    eapply line_starts_clean_first, Hout.
  - intros pre c H. eapply rstrip_ws_last, H.
  - exact Hafter.
  - intros pre post H.
    assert (Hc := Hafter pre "010"%char post H). congruence.
Qed.

(* ================================================================= *)
(** * The date normalizer and white space *)

Lemma rev_str_acc (s acc : string) :
  rev_str s acc = rev_str s EmptyString +++ acc.
Proof.
  revert acc. induction s as [|c s IH]; intros acc; simpl; trivial.
  rewrite (IH (String c acc)), (IH (String c EmptyString)).
  now rewrite append_assoc.
Qed.

Lemma rev_str_append (a b : string) :
  rev_str (a +++ b) EmptyString
  = rev_str b EmptyString +++ rev_str a EmptyString.
Proof.
  induction a as [|c a IH]; simpl.
  - now rewrite append_empty_r.
  - rewrite (rev_str_acc (a +++ b)), IH, (rev_str_acc a (String c EmptyString)).
    now rewrite append_assoc.
Qed.

Lemma rev_str_involutive (s : string) :
  rev_str (rev_str s EmptyString) EmptyString = s.
Proof.
  induction s as [|c s IH]; simpl; trivial.
  now rewrite (rev_str_acc s (String c EmptyString)), rev_str_append, IH.
Qed.

Lemma lstrip_suffix (s : string) : exists w, s = w +++ lstrip s.
Proof.
  induction s as [|c s [w IH]]; simpl.
  - now exists EmptyString.
  - destruct (is_space c).
    + exists (String c w). simpl. now rewrite <- IH.
    + now exists EmptyString.
Qed.

Lemma lstrip_starts_clean (s : string) : starts_clean (lstrip s) = true.
Proof.
  induction s as [|c s IH]; simpl; trivial.
  destruct (is_space c) eqn:E; trivial. simpl. now rewrite E.
Qed.

Lemma lstrip_id (s : string) : starts_clean s = true -> lstrip s = s.
Proof. destruct s as [|c s]; simpl; trivial. now destruct (is_space c). Qed.

Lemma starts_clean_append (a b : string) :
  a <> EmptyString -> starts_clean (a +++ b) = starts_clean a.
Proof. now destruct a. Qed.

Lemma rev_str_nonempty (s : string) :
  s <> EmptyString -> rev_str s EmptyString <> EmptyString.
Proof.
  destruct s as [|c s]; [easy|]. intros _. simpl.
  rewrite rev_str_acc. now destruct (rev_str s EmptyString).
Qed.

Lemma lstrip_keeps_end (y : string) :
  starts_clean (rev_str y EmptyString) = true ->
  starts_clean (rev_str (lstrip y) EmptyString) = true.
Proof.
  destruct (lstrip_suffix y) as [w Hw]. intros H.
  destruct (lstrip y) as [|c z] eqn:E; trivial.
  rewrite Hw, rev_str_append, starts_clean_append in H; trivial.
  now apply rev_str_nonempty.
Qed.

Lemma strip_idempotent (s : string) : strip (strip s) = strip s.
Proof.
  unfold strip.
  set (a := lstrip s). set (b := lstrip (rev_str a EmptyString)).
  assert (Hb : starts_clean (rev_str b EmptyString) = true).
  { apply lstrip_keeps_end. rewrite rev_str_involutive.
    apply lstrip_starts_clean. }
  rewrite (lstrip_id _ Hb), rev_str_involutive.
  now rewrite (lstrip_id b) by apply lstrip_starts_clean.
Qed.

Lemma try_formats_strip (s t : string) (fmts : list string) :
  strip s = strip t -> try_formats s fmts = try_formats t fmts.
Proof.
  intros H. induction fmts as [|fmt fmts IH]; simpl; trivial.
  now rewrite H, IH.
Qed.

(** X14.  White space around a date string does not matter to
    [parse_date_string]: the text and the stripped text give the same
    result, and a text of white space only is no date. *)
Theorem parse_date_string_ignores_outer_space (date_str : string) :
  parse_date_string date_str = parse_date_string (strip date_str) /\
  (strip date_str = EmptyString -> parse_date_string date_str = inr None).
Proof.
  assert (Hblank : strip date_str = EmptyString ->
                   parse_date_string date_str = inr None).
  { intros H. unfold parse_date_string.
    destruct (String.eqb date_str EmptyString); trivial.
    now rewrite (@try_formats_strip date_str EmptyString formats H). }
  split; trivial.
  destruct (String.eqb_spec (strip date_str) EmptyString) as [E|E].
  - rewrite (Hblank E), E. reflexivity.
  - unfold parse_date_string.
    destruct (String.eqb_spec date_str EmptyString) as [->|_];
      [now contradiction E|].
    destruct (String.eqb_spec (strip date_str) EmptyString); [easy|].
    apply try_formats_strip. symmetry. apply strip_idempotent.
Qed.

(* ================================================================= *)
(** * Categories of the results *)

Lemma selected_feeds_registry (rss_url : string) :
  In rss_url selected_feeds ->
  exists c info,
    dict_lookup AWS_BLOG_CATEGORIES c = Some info /\
    cat_rss info = rss_url /\
    In c (firstn 5 (dict_keys AWS_BLOG_CATEGORIES)).
Proof.
  unfold selected_feeds. intros H.
  apply in_map_iff in H as ([c info] & <- & H). exists c, info.
  cbn in H.
  repeat (destruct H as [[= <- <-]|H];
          [split; [reflexivity|]; split; [reflexivity|]; cbn; tauto|]).
  destruct H.
Qed.

(** X15.  [search_blog_posts] never sets the category of a result, also
    when the search was filtered by a category.  Every post of
    [get_recent_posts] carries the display name of a registry category:
    of the filter when it is a known one, of one of the first five
    categories otherwise. *)
Theorem categories_of_results (lower : string -> string) (net : Net)
        (query : string) (category : option string) (limit : nat) :
  exists results posts,
    value (search_blog_posts lower net query category limit) = inr results /\
    value (get_recent_posts net category limit) = inr posts /\
    (forall r, In r results -> sr_category r = None) /\
    (forall p,
        In p posts ->
        exists c info,
          dict_lookup AWS_BLOG_CATEGORIES c = Some info /\
          bp_category p = Some (cat_name info) /\
          match known_category category with
          | Some k => c = k
          | None => In c (firstn 5 (dict_keys AWS_BLOG_CATEGORIES))
          end).
Proof.
  do 2 eexists.
  split; [apply search_blog_posts_value|].
  split; [apply get_recent_posts_value|]. split.
  - intros r Hr. apply search_output_origin in Hr as (e & _ & ->).
    reflexivity.
  - intros p Hp. apply In_firstn, sorted_reverse_in in Hp.
    unfold recent_merged in Hp.
    destruct (known_category category) as [k|].
    + destruct (dict_lookup AWS_BLOG_CATEGORIES k) as [info|] eqn:Hk;
        [|easy].
      apply posts_contribution_origin in Hp as (entries & e & _ & _ & ->).
      exists k, info. repeat split; trivial.
      apply (registry_category_of_rss _ Hk).
    + apply in_flat_map in Hp as (rss_url & Hin & Hp).
      apply posts_contribution_origin in Hp as (entries & e & _ & _ & ->).
      destruct (selected_feeds_registry Hin) as (c & info & Hc & <- & Hfive).
      exists c, info. repeat split; trivial.
      apply (registry_category_of_rss _ Hc).
Qed.

(* ================================================================= *)
(** * The properties on sample feeds and pages *)

Lemma unknown_category_is_no_filter_witness :
  dict_mem AWS_BLOG_CATEGORIES "quantum" = false /\
  value (search_blog_posts Samples.ascii_lower
           (Samples.only_aws [Samples.roundup; Samples.launch])
           "lambda" (Some "quantum") 10)
  = value (search_blog_posts Samples.ascii_lower
             (Samples.only_aws [Samples.roundup; Samples.launch])
             "lambda" None 10) /\
  value (get_recent_posts (Samples.only_aws [Samples.roundup; Samples.launch])
           (Some "quantum") 10)
  = value (get_recent_posts (Samples.only_aws [Samples.roundup; Samples.launch])
             None 10).
Proof.
  split; [reflexivity|].
  apply (@unknown_category_is_no_filter Samples.ascii_lower
           (Samples.only_aws [Samples.roundup; Samples.launch])
           "lambda" "quantum" 10).
  reflexivity.
Defined.

Lemma empty_query_matches_every_entry_witness :
  Samples.ascii_lower EmptyString = EmptyString /\
  dict_lookup AWS_BLOG_CATEGORIES "aws" = Some PageSamples.aws_info /\
  forallb valid_date (firstn (1 * 2) [Samples.undated; Samples.earliest])
  = true /\
  forallb valid_date (firstn (1 * 2) [Samples.undated; Samples.year_zero])
  = false /\
  value (search_blog_posts Samples.ascii_lower
           (Samples.only_aws [Samples.undated; Samples.earliest])
           EmptyString (Some "aws") 1)
  = inr [search_result_of Samples.undated None 3] /\
  value (search_blog_posts Samples.ascii_lower
           (Samples.only_aws [Samples.undated; Samples.year_zero])
           EmptyString (Some "aws") 1)
  = inr [].
Proof.
  split; [reflexivity|]. split; [reflexivity|].
  split; [reflexivity|]. split; [reflexivity|]. split.
  - exact (proj1 (proj2 (@empty_query_matches_every_entry Samples.ascii_lower
                    (Samples.only_aws [Samples.undated; Samples.earliest])
                    "aws" PageSamples.aws_info
                    [Samples.undated; Samples.earliest] 1
                    eq_refl eq_refl eq_refl)) eq_refl).
  - exact (proj2 (proj2 (@empty_query_matches_every_entry Samples.ascii_lower
                    (Samples.only_aws [Samples.undated; Samples.year_zero])
                    "aws" PageSamples.aws_info
                    [Samples.undated; Samples.year_zero] 1
                    eq_refl eq_refl eq_refl)) eq_refl).
Defined.

Lemma recent_posts_of_category_sort_the_feed_witness :
  dict_lookup AWS_BLOG_CATEGORIES "aws" = Some PageSamples.aws_info /\
  exists posts,
    value (get_rss_feed (Samples.only_aws [Samples.undated; Samples.earliest])
                        "aws" 5) = inr posts /\
    value (get_recent_posts
             (Samples.only_aws [Samples.undated; Samples.earliest])
             (Some "aws") 5)
    = inr (sorted_reverse datetime_ltb published_key posts).
Proof.
  split; [reflexivity|].
  apply (@recent_posts_of_category_sort_the_feed
           (Samples.only_aws [Samples.undated; Samples.earliest])
           "aws" PageSamples.aws_info 5).
  reflexivity.
Defined.

Lemma get_rss_feed_known_category_witness :
  dict_lookup AWS_BLOG_CATEGORIES "aws" = Some PageSamples.aws_info /\
  requests (trace (get_rss_feed
                     (Samples.only_aws [Samples.undated; Samples.year_zero])
                     "aws" 5))
  = ["https://aws.amazon.com/blogs/aws/feed/"] /\
  forallb valid_date (firstn 5 [Samples.undated; Samples.year_zero]) = false /\
  value (get_rss_feed (Samples.only_aws [Samples.undated; Samples.year_zero])
                      "aws" 5)
  = inr [] /\
  forallb valid_date (firstn 1 [Samples.undated; Samples.year_zero]) = true /\
  exists posts,
    value (get_rss_feed (Samples.only_aws [Samples.undated; Samples.year_zero])
                        "aws" 1)
    = inr posts /\
    List.length posts = 1.
Proof.
  split; [reflexivity|]. split; [|split; [reflexivity|split]].
  - exact (proj1 (@get_rss_feed_known_category
                    (Samples.only_aws [Samples.undated; Samples.year_zero])
                    "aws" PageSamples.aws_info 5 eq_refl)).
  - exact (proj1 (proj2 (proj2 (@get_rss_feed_known_category
                    (Samples.only_aws [Samples.undated; Samples.year_zero])
                    "aws" PageSamples.aws_info 5 eq_refl)))
                 [Samples.undated; Samples.year_zero] eq_refl eq_refl).
  - split; [reflexivity|].
    destruct (proj2 (proj2 (proj2 (@get_rss_feed_known_category
                (Samples.only_aws [Samples.undated; Samples.year_zero])
                "aws" PageSamples.aws_info 1 eq_refl)))
                [Samples.undated; Samples.year_zero] eq_refl eq_refl)
      as (posts & Hvalue & Hlength & _).
    exists posts. split; [exact Hvalue | exact Hlength].
Defined.

Lemma url_category_of_accepted_url_witness :
  startswith Samples.post_url "https://aws.amazon.com/blogs/" = true /\
  md_category
    (Html.pm_fields
       (Html.extract_blog_metadata PageSamples.page Samples.post_url))
  = Some "AWS News Blog".
Proof.
  split; [reflexivity|].
  exact (@url_category_of_accepted_url PageSamples.page Samples.post_url
           eq_refl).
Defined.

Lemma url_category_of_registry_url_witness :
  dict_lookup AWS_BLOG_CATEGORIES "security" = Some PageSamples.security_info /\
  md_category
    (Html.pm_fields
       (Html.extract_blog_metadata
          PageSamples.page "https://aws.amazon.com/blogs/security/post/"))
  = Some "AWS Security Blog".
Proof.
  split; [reflexivity|].
  exact (@url_category_of_registry_url PageSamples.page "security"
           PageSamples.security_info "post/" eq_refl).
Defined.

Lemma published_date_of_first_element_witness :
  Html.date_selectors
  = [] ++ "time[datetime]" :: [".published"; ".post-date"; ".entry-date"] /\
  Html.soup_select_one PageSamples.page "time[datetime]"
  = Some PageSamples.time_elem /\
  Html.soup_select_one PageSamples.page ".published"
  = Some PageSamples.published_elem /\
  parse_date_string "soon" = inr None /\
  md_published_date
    (Html.pm_fields
       (Html.extract_blog_metadata PageSamples.page Samples.post_url))
  = None.
Proof.
  assert (Hsoon : parse_date_string "soon" = inr None)
    by (vm_compute; reflexivity).
  repeat (split; [reflexivity || exact Hsoon|]).
  destruct (@published_date_of_first_element
              PageSamples.page Samples.post_url (@nil string)
              [".published"; ".post-date"; ".entry-date"]
              "time[datetime]" PageSamples.time_elem eq_refl
              (fun s H => match H with end) eq_refl)
    as (result & Hparse & Hdate).
  change (parse_date_string "soon" = inr result) in Hparse.
  rewrite Hsoon in Hparse. injection Hparse as <-. exact Hdate.
Defined.

Lemma clean_html_content_lines_witness :
  Html.isspace "010"%char = true /\
  exists text,
    value (Html.clean_html_content Html.isspace PageSamples.parse_any
             PageSamples.keep_all PageSamples.plain
             PageSamples.two_paragraphs) = inr text /\
    (forall c rest, text = String c rest -> Html.isspace c = false) /\
    (forall pre post, text <> pre +++ nl +++ nl +++ post).
Proof.
  split; [reflexivity|].
  destruct (@clean_html_content_lines Html.isspace PageSamples.parse_any
              PageSamples.keep_all PageSamples.plain
              PageSamples.two_paragraphs eq_refl)
    as (text & Hvalue & Hstart & _ & _ & Hblank).
  exists text. split; [exact Hvalue|]. split; [exact Hstart | exact Hblank].
Defined.
